(** * Google Slides tools: a shallow embedding of [gslides/slides_tools.py]

    The tools of [slides_tools.py] receive JSON-like Python values from the
    remote Slides service and from their caller, walk them with [dict.get],
    [in], indexing and [for] loops, send batches of requests and render
    plain-text summaries.  This development embeds

    - the Python values and the handful of built-in operations the tools
      apply to them, with the exceptions those operations raise,
    - the remote service and the logger as an explicit event trace,
    - [get_presentation], [batch_update_presentation], [get_page],
      [get_slide_content], [update_slide_content], [copy_slide] and
      [create_slide], statement by statement,

    and states the properties of the specification about them. *)

From Stdlib Require Import List String Ascii ZArith Lia Bool Arith.
From Stdlib Require Import DecimalString.
Import ListNotations.

Local Open Scope string_scope.
Set Warnings "-register-all".

(** ** Python values *)

(** A JSON-like Python value.  A [str] is a sequence of code points below
    256, one per [ascii].  A [float] is carried by what the tools can observe
    of it: whether it is non-zero (its truth value) and its [str()].  A
    [dict] has string keys and keeps its insertion order, so it is an
    association list; [dict_lookup] reads the first binding of a key. *)
Inductive value : Type :=
| VNone
| VBool (b : bool)
| VInt (z : Z)
| VFloat (nonzero : bool) (text : string)
| VStr (s : string)
| VList (l : list value)
| VDict (d : list (string * value)).

Definition dict : Type := list (string * value).

(** The exceptions the embedded operations can raise.  [RemoteFailure] is any
    error raised by a remote call; the tools never catch it. *)
Inductive pyerr : Type :=
| AttributeError
| TypeError
| KeyError
| IndexError
| RemoteFailure (info : string).

Inductive res (A : Type) : Type :=
| Ok (a : A)
| Raise (e : pyerr).
Arguments Ok {A} a.
Arguments Raise {A} e.

Definition res_bind {A B} (r : res A) (k : A -> res B) : res B :=
  match r with
  | Ok a => k a
  | Raise e => Raise e
  end.

Notation "'let?' x ':=' e 'in' k" := (res_bind e (fun x => k))
  (at level 10, x name, e at level 100, k at level 200).

(** [l.append(x)] *)
Definition list_append {A} (l : list A) (x : A) : list A := (l ++ [x])%list.

(** A [for] loop over a list whose body updates the loop's variables [S] and
    may raise. *)
Fixpoint for_each {A S} (body : S -> A -> res S) (xs : list A) (s : S) : res S :=
  match xs with
  | [] => Ok s
  | x :: xs' => let? s' := body s x in for_each body xs' s'
  end.

(** ** Strings *)

Definition nl : string := String (ascii_of_nat 10) "".

(** [str(n)] for an [int]. *)
Definition str_of_Z (z : Z) : string := NilZero.string_of_int (Z.to_int z).
Definition str_of_nat (n : nat) : string := str_of_Z (Z.of_nat n).

(** [c.isspace()] for a code point below 256. *)
Definition is_space (c : ascii) : bool :=
  let n := nat_of_ascii c in
  (((9 <=? n) && (n <=? 13)) || ((28 <=? n) && (n <=? 32))
   || (n =? 133) || (n =? 160))%nat.

Fixpoint lstrip (s : string) : string :=
  match s with
  | String c s' => if is_space c then lstrip s' else s
  | EmptyString => EmptyString
  end.

Fixpoint rstrip (s : string) : string :=
  match s with
  | String c s' =>
      match rstrip s' with
      | EmptyString => if is_space c then EmptyString else String c EmptyString
      | r => String c r
      end
  | EmptyString => EmptyString
  end.

(** [s.strip()] *)
Definition strip (s : string) : string := rstrip (lstrip s).

(** [sub in s] for two strings. *)
Fixpoint contains (sub s : string) : bool :=
  if prefix sub s then true
  else match s with
       | String _ s' => contains sub s'
       | EmptyString => false
       end.

(** [[c for c in s]]: the one-character strings of [s]. *)
Fixpoint chars (s : string) : list string :=
  match s with
  | String c s' => String c EmptyString :: chars s'
  | EmptyString => []
  end.

(** ** Built-in operations on values *)

Fixpoint dict_lookup (k : string) (d : dict) : option value :=
  match d with
  | [] => None
  | (k', v) :: d' => if String.eqb k' k then Some v else dict_lookup k d'
  end.

(** [v.get(k, default)]: only a [dict] has [get]. *)
Definition py_get (v : value) (k : string) (default : value) : res value :=
  match v with
  | VDict d =>
      match dict_lookup k d with
      | Some x => Ok x
      | None => Ok default
      end
  | _ => Raise AttributeError
  end.

(** [d.get(k)] and [d.get(k, default)] on a value known to be a [dict]. *)
Definition dict_get (d : dict) (k : string) (default : value) : value :=
  match dict_lookup k d with
  | Some x => x
  | None => default
  end.

(** [v == s] for a string [s]: only an equal [str] is equal to a [str]. *)
Definition py_eq_str (v : value) (s : string) : bool :=
  match v with
  | VStr t => String.eqb t s
  | _ => false
  end.

(** [k in v] for a string [k]. *)
Definition py_in (k : string) (v : value) : res bool :=
  match v with
  | VDict d =>
      match dict_lookup k d with
      | Some _ => Ok true
      | None => Ok false
      end
  | VList l => Ok (existsb (fun x => py_eq_str x k) l)
  | VStr s => Ok (contains k s)
  | _ => Raise TypeError
  end.

(** [v[k]] for a string [k]. *)
Definition py_getitem (v : value) (k : string) : res value :=
  match v with
  | VDict d =>
      match dict_lookup k d with
      | Some x => Ok x
      | None => Raise KeyError
      end
  | _ => Raise TypeError
  end.

(** [v[0]] *)
Definition py_first (v : value) : res value :=
  match v with
  | VList (x :: _) => Ok x
  | VList [] => Raise IndexError
  | VStr (String c _) => Ok (VStr (String c EmptyString))
  | VStr EmptyString => Raise IndexError
  | VDict _ => Raise KeyError
  | _ => Raise TypeError
  end.

(** The values a [for] loop over [v] visits. *)
Definition py_iter (v : value) : res (list value) :=
  match v with
  | VList l => Ok l
  | VDict d => Ok (map (fun kv => VStr (fst kv)) d)
  | VStr s => Ok (map VStr (chars s))
  | _ => Raise TypeError
  end.

(** [len(v)] *)
Definition py_len (v : value) : res nat :=
  match v with
  | VList l => Ok (List.length l)
  | VDict d => Ok (List.length d)
  | VStr s => Ok (String.length s)
  | _ => Raise TypeError
  end.

(** [s + v] (and [s += v]) for a string [s]. *)
Definition py_add_str (s : string) (v : value) : res string :=
  match v with
  | VStr t => Ok (s ++ t)
  | _ => Raise TypeError
  end.

(** The truth value of [v], as [if v], [not v] and [v or x] test it. *)
Definition truthy (v : value) : bool :=
  match v with
  | VNone => false
  | VBool b => b
  | VInt z => negb (Z.eqb z 0)
  | VFloat nonzero _ => nonzero
  | VStr s => negb (String.eqb s "")
  | VList l => match l with [] => false | _ => true end
  | VDict d => match d with [] => false | _ => true end
  end.

(** [enumerate(l)] *)
Definition enumerate {A} (l : list A) : list (nat * A) :=
  combine (seq 0 (List.length l)) l.

(** ** The remote service and the logger *)

(** One remote round trip: [service.presentations().pages().get(...)],
    [service.presentations().get(...)] and
    [service.presentations().batchUpdate(...)], each followed by
    [.execute]. *)
Inductive call : Type :=
| PagesGet (presentationId pageObjectId : string)
| PresentationsGet (presentationId : string)
| BatchUpdate (presentationId : string) (body : value).

Inductive level : Type := Info | Warning.

(** What a tool does to the outside world, in the order it does it. *)
Inductive event : Type :=
| Called (c : call)
| Logged (l : level) (msg : string).

Definition is_batch_update (e : event) : bool :=
  match e with
  | Called (BatchUpdate _ _) => true
  | _ => false
  end.

Definition is_warning (e : event) : bool :=
  match e with
  | Logged Warning _ => true
  | _ => false
  end.

(** The remote calls of a trace, in order. *)
Fixpoint calls (tr : list event) : list call :=
  match tr with
  | [] => []
  | Called c :: tr' => c :: calls tr'
  | Logged _ _ :: tr' => calls tr'
  end.

(** The [batchUpdate] calls of a trace, in order. *)
Definition batch_updates (tr : list event) : list event :=
  filter is_batch_update tr.

(** The warnings of a trace, in order. *)
Definition warnings (tr : list event) : list event :=
  filter is_warning tr.

(** [body={"requests": requests}] of a [batchUpdate] call. *)
Definition batch_body (requests : list value) : value :=
  VDict [("requests", VList requests)].

Section Tools.

(** [repr(s)] for a string [s]: Python's quoting and escaping of a string,
    used when a [list] or a [dict] is formatted. *)
Variable repr_str : string -> string.

(** The remote service: its answer to a call, or the error it raises, given
    the calls it received before. *)
Variable remote : list call -> call -> res value.

(** [repr(v)] *)
Fixpoint py_repr (v : value) : string :=
  match v with
  | VNone => "None"
  | VBool true => "True"
  | VBool false => "False"
  | VInt z => str_of_Z z
  | VFloat _ text => text
  | VStr s => repr_str s
  | VList l => "[" ++ String.concat ", " (map py_repr l) ++ "]"
  | VDict d =>
      "{" ++ String.concat ", "
               (map (fun kv => let '(k, x) := kv in
                               repr_str k ++ ": " ++ py_repr x) d) ++ "}"
  end.

(** [str(v)], which an f-string applies to each [{v}]. *)
Definition py_str (v : value) : string :=
  match v with
  | VStr s => s
  | _ => py_repr v
  end.

(** [str(l)] for a list of strings. *)
Definition str_of_strs (l : list string) : string :=
  "[" ++ String.concat ", " (map repr_str l) ++ "]".

(** *** Tool bodies: a state-and-exception monad over the event trace *)

Definition M (A : Type) : Type := list event -> res A * list event.

Definition ret {A} (a : A) : M A := fun tr => (Ok a, tr).

Definition bind {A B} (m : M A) (k : A -> M B) : M B :=
  fun tr =>
    match m tr with
    | (Ok a, tr') => k a tr'
    | (Raise e, tr') => (Raise e, tr')
    end.

(** A computation that touches nothing outside. *)
Definition lift {A} (r : res A) : M A := fun tr => (r, tr).

(** [logger.info(msg)] and [logger.warning(msg)] *)
Definition log (l : level) (msg : string) : M unit :=
  fun tr => (Ok tt, (tr ++ [Logged l msg])%list).

(** [await asyncio.to_thread(<call>.execute)] *)
Definition execute (c : call) : M value :=
  fun tr => (remote (calls tr) c, (tr ++ [Called c])%list).

Notation "'let!' x ':=' e 'in' k" := (bind e (fun x => k))
  (at level 10, x name, e at level 100, k at level 200).
Notation "'do!' e 'in' k" := (bind e (fun _ => k))
  (at level 10, e at level 100, k at level 200).

(** A [for] loop whose body may log and call. *)
Fixpoint for_eachM {A S} (body : S -> A -> M S) (xs : list A) (s : S) : M S :=
  match xs with
  | [] => ret s
  | x :: xs' => let! s' := body s x in for_eachM body xs' s'
  end.

(** ** [get_page] *)

(** The body of the loop of [get_page] for one [element]: the line appended
    to [elements_info]. *)
Definition get_page_line (element : value) : res string :=
  let? element_id := py_get element "objectId" (VStr "Unknown") in
  let? has_shape := py_in "shape" element in
  if has_shape then
    let? shape := py_getitem element "shape" in
    let? shape_type := py_get shape "shapeType" (VStr "Unknown") in
    Ok ("  Shape: ID " ++ py_str element_id ++ ", Type: " ++ py_str shape_type)
  else
  let? has_table := py_in "table" element in
  if has_table then
    let? table := py_getitem element "table" in
    let? rows := py_get table "rows" (VInt 0) in
    let? cols := py_get table "columns" (VInt 0) in
    Ok ("  Table: ID " ++ py_str element_id ++ ", Size: " ++ py_str rows
          ++ "x" ++ py_str cols)
  else
  let? has_line := py_in "line" element in
  if has_line then
    let? line := py_getitem element "line" in
    let? line_type := py_get line "lineType" (VStr "Unknown") in
    Ok ("  Line: ID " ++ py_str element_id ++ ", Type: " ++ py_str line_type)
  else
    Ok ("  Element: ID " ++ py_str element_id ++ ", Type: Unknown").

(** [elements_info] after the loop over [page_elements]. *)
Definition get_page_lines (page_elements : list value) : res (list string) :=
  for_each (fun elements_info element =>
              let? line := get_page_line element in
              Ok (list_append elements_info line))
           page_elements [].

Definition get_page (user_google_email presentation_id page_object_id : string)
  : M string :=
  do! log Info ("[get_page] Invoked. Email: '" ++ user_google_email
            ++ "', Presentation: '" ++ presentation_id
            ++ "', Page: '" ++ page_object_id ++ "'") in
  let! result := execute (PagesGet presentation_id page_object_id) in
  let! page_type := lift (py_get result "pageType" (VStr "Unknown")) in
  let! page_elements := lift (py_get result "pageElements" (VList [])) in
  let! elements := lift (py_iter page_elements) in
  let! elements_info := lift (get_page_lines elements) in
  let! total := lift (py_len page_elements) in
  let confirmation_message :=
    "Page Details for " ++ user_google_email ++ ":" ++ nl
    ++ "- Presentation ID: " ++ presentation_id ++ nl
    ++ "- Page ID: " ++ page_object_id ++ nl
    ++ "- Page Type: " ++ py_str page_type ++ nl
    ++ "- Total Elements: " ++ str_of_nat total ++ nl
    ++ nl
    ++ "Page Elements:" ++ nl
    ++ match elements_info with
       | [] => "  No elements found"
       | _ => String.concat nl elements_info
       end in
  do! log Info ("Page retrieved successfully for " ++ user_google_email) in
  ret confirmation_message.

(** ** [get_slide_content] *)

(** The loop over [text_elements] that accumulates the [content] of every
    [textRun], starting from [text]. *)
Definition concat_text_runs (text_elements : list value) (text : string)
  : res string :=
  for_each (fun text_content te =>
              let? has_run := py_in "textRun" te in
              if has_run then
                let? run := py_getitem te "textRun" in
                let? content := py_get run "content" (VStr "") in
                py_add_str text_content content
              else Ok text_content)
           text_elements text.

(** The body of the inner loop over the cells of a table row: the text
    appended to [cell_row]. *)
Definition cell_text_of (cell : value) : res string :=
  let? text := py_get cell "text" (VDict []) in
  let? text_elements := py_get text "textElements" (VList []) in
  let? tes := py_iter text_elements in
  let? cell_text := concat_text_runs tes "" in
  Ok (strip cell_text).

(** The body of the loop over [enumerate(cells)]: the line appended to
    [table_content]. *)
Definition table_row_line (row_idx : nat) (row : value) : res string :=
  let? table_cells := py_get row "tableCells" (VList []) in
  let? cs := py_iter table_cells in
  let? cell_row :=
    for_each (fun cell_row col_cell =>
                let? t := cell_text_of (snd col_cell) in
                Ok (list_append cell_row t))
             (enumerate cs) [] in
  Ok ("    Row " ++ str_of_nat (row_idx + 1) ++ ": " ++ str_of_strs cell_row).

(** [text_content] of a [shape] in [get_slide_content], once the [if 'text'
    in shape] block has run. *)
Definition shape_text_content (shape : value) : res string :=
  let? has_text := py_in "text" shape in
  if has_text then
    let? text := py_getitem shape "text" in
    let? text_elements := py_get text "textElements" (VList []) in
    let? tes := py_iter text_elements in
    concat_text_runs tes ""
  else Ok "".

(** The body of the loop of [get_slide_content] for one [element]: the block
    appended to [content_blocks]. *)
Definition content_block (element : value) : res string :=
  let? element_id := py_get element "objectId" (VStr "Unknown") in
  let? has_shape := py_in "shape" element in
  if has_shape then
    let? shape := py_getitem element "shape" in
    let? shape_type := py_get shape "shapeType" (VStr "Unknown") in
    let? text_content := shape_text_content shape in
    Ok ("[Shape] ID: " ++ py_str element_id ++ ", Type: " ++ py_str shape_type
          ++ nl ++ "  Text: "
          ++ (if truthy (VStr text_content) then strip text_content
              else "(empty)"))
  else
  let? has_table := py_in "table" element in
  if has_table then
    let? table := py_getitem element "table" in
    let? rows := py_get table "rows" (VInt 0) in
    let? cols := py_get table "columns" (VInt 0) in
    let? cells := py_get table "tableRows" (VList []) in
    let? rs := py_iter cells in
    let? table_content :=
      for_each (fun table_content idx_row =>
                  let? line := table_row_line (fst idx_row) (snd idx_row) in
                  Ok (list_append table_content line))
               (enumerate rs) [] in
    Ok ("[Table] ID: " ++ py_str element_id ++ ", Size: " ++ py_str rows
          ++ "x" ++ py_str cols ++ nl
          ++ match table_content with
             | [] => "    (empty table)"
             | _ => String.concat nl table_content
             end)
  else
  let? has_image := py_in "image" element in
  if has_image then
    let? image := py_getitem element "image" in
    let? description := py_get image "description" (VStr "") in
    Ok ("[Image] ID: " ++ py_str element_id ++ nl ++ "  Description: "
          ++ (if truthy description then py_str description
              else "(no description)"))
  else
  let? has_video := py_in "video" element in
  if has_video then
    let? video := py_getitem element "video" in
    let? video_url := py_get video "url" (VStr "(unknown)") in
    Ok ("[Video] ID: " ++ py_str element_id ++ nl ++ "  URL: "
          ++ py_str video_url)
  else
  let? has_line := py_in "line" element in
  if has_line then
    let? line := py_getitem element "line" in
    let? line_type := py_get line "lineType" (VStr "Unknown") in
    Ok ("[Line] ID: " ++ py_str element_id ++ ", Type: " ++ py_str line_type)
  else
    Ok ("[Element] ID: " ++ py_str element_id ++ ", Type: Unknown").

(** [content_blocks] after the loop over [page_elements]. *)
Definition extract (page_elements : list value) : res (list string) :=
  for_each (fun content_blocks element =>
              let? block := content_block element in
              Ok (list_append content_blocks block))
           page_elements [].

Definition get_slide_content
  (user_google_email presentation_id page_object_id : string) : M string :=
  do! log Info ("[get_slide_content] Invoked. Email: '" ++ user_google_email
            ++ "', Presentation: '" ++ presentation_id
            ++ "', Page: '" ++ page_object_id ++ "'") in
  let! result := execute (PagesGet presentation_id page_object_id) in
  let! page_elements := lift (py_get result "pageElements" (VList [])) in
  let! elements := lift (py_iter page_elements) in
  let! content_blocks := lift (extract elements) in
  let! total := lift (py_len page_elements) in
  let confirmation_message :=
    "Slide Content Details for " ++ user_google_email ++ ":" ++ nl
    ++ "- Presentation ID: " ++ presentation_id ++ nl
    ++ "- Page ID: " ++ page_object_id ++ nl
    ++ "- Total Elements: " ++ str_of_nat total ++ nl
    ++ nl
    ++ "Content Summary:" ++ nl
    ++ match content_blocks with
       | [] => "  No content found on this slide."
       | _ => String.concat nl content_blocks
       end ++ nl in
  do! log Info ("Slide content retrieved successfully for " ++ user_google_email) in
  ret confirmation_message.

(** ** [update_slide_content] *)

(** The body of the first loop of [update_slide_content], for one [upd]:
    [requests] after it.  Only the last branch does anything besides
    appending: it logs a warning. *)
Definition build_requests_step (requests : list value) (upd : dict)
  : M (list value) :=
  let element_id := dict_get upd "element_id" VNone in
  let update_type := dict_get upd "update_type" VNone in
  if py_eq_str update_type "shape_text" then
    let text := dict_get upd "text" (VStr "") in
    let requests :=
      list_append requests
        (VDict [("deleteText",
                 VDict [("objectId", element_id);
                        ("textRange", VDict [("type", VStr "ALL")])])]) in
    let requests :=
      list_append requests
        (VDict [("insertText",
                 VDict [("objectId", element_id);
                        ("insertionIndex", VInt 0);
                        ("text", text)])]) in
    ret requests
  else if py_eq_str update_type "table_cell" then
    let row := dict_get upd "row" VNone in
    let col := dict_get upd "column" VNone in
    let text := dict_get upd "text" (VStr "") in
    let requests :=
      list_append requests
        (VDict [("deleteText",
                 VDict [("objectId", element_id);
                        ("cellLocation",
                         VDict [("rowIndex", row); ("columnIndex", col)]);
                        ("textRange", VDict [("type", VStr "ALL")])])]) in
    let requests :=
      list_append requests
        (VDict [("insertText",
                 VDict [("objectId", element_id);
                        ("cellLocation",
                         VDict [("rowIndex", row); ("columnIndex", col)]);
                        ("insertionIndex", VInt 0);
                        ("text", text)])]) in
    ret requests
  else if py_eq_str update_type "image_description" then
    let description := dict_get upd "description" (VStr "") in
    let requests :=
      list_append requests
        (VDict [("updateImageProperties",
                 VDict [("objectId", element_id);
                        ("fields", VStr "description");
                        ("imageProperties",
                         VDict [("description", description)])])]) in
    ret requests
  else
    do! log Warning ("Unknown update_type '" ++ py_str update_type
                     ++ "' for element " ++ py_str element_id) in
    ret requests.

(** The first loop of [update_slide_content]: [requests] after the loop over
    [updates]. *)
Definition build_requests (updates : list dict) : M (list value) :=
  for_eachM build_requests_step updates [].

(** The body of the second loop of [update_slide_content], for one [upd]:
    [summary] and [update_idx] after it. *)
Definition summarize_step (st : list string * nat) (upd : dict)
  : list string * nat :=
  let '(summary, update_idx) := st in
  let update_type := dict_get upd "update_type" VNone in
  let element_id := dict_get upd "element_id" VNone in
  if py_eq_str update_type "shape_text" then
    (list_append summary ("Shape (ID: " ++ py_str element_id ++ "): Text updated"),
     update_idx + 2)
  else if py_eq_str update_type "table_cell" then
    let row := dict_get upd "row" VNone in
    let col := dict_get upd "column" VNone in
    (list_append summary ("Table (ID: " ++ py_str element_id ++ "), Cell ("
                            ++ py_str row ++ ", " ++ py_str col
                            ++ "): Text updated"),
     update_idx + 2)
  else if py_eq_str update_type "image_description" then
    (list_append summary ("Image (ID: " ++ py_str element_id
                            ++ "): Description updated"),
     update_idx + 1)
  else
    (list_append summary ("Element (ID: " ++ py_str element_id
                            ++ "): Skipped (unknown type)"),
     update_idx).

(** The second loop of [update_slide_content]: [summary] and [update_idx]
    after the loop over [updates]. *)
Definition summarize (updates : list dict) : list string * nat :=
  fold_left summarize_step updates ([], 0).

Definition update_slide_content
  (user_google_email presentation_id page_object_id : string)
  (updates : list dict) : M string :=
  do! log Info ("[update_slide_content] Invoked. Email: '" ++ user_google_email
                ++ "', Presentation: '" ++ presentation_id
                ++ "', Page: '" ++ page_object_id
                ++ "', Updates: " ++ str_of_nat (List.length updates)) in
  let! requests := build_requests updates in
  if negb (truthy (VList requests)) then
    ret "No valid updates were provided."
  else
  let! result := execute (BatchUpdate presentation_id (batch_body requests)) in
  let! replies := lift (py_get result "replies" (VList [])) in
  let summary := fst (summarize updates) in
  let! n_replies := lift (py_len replies) in
  let confirmation_message :=
    "Slide Content Update Results for " ++ user_google_email ++ ":" ++ nl
    ++ "- Presentation ID: " ++ presentation_id ++ nl
    ++ "- Page ID: " ++ page_object_id ++ nl
    ++ "- Updates Requested: " ++ str_of_nat (List.length updates) ++ nl
    ++ "- Requests Sent: " ++ str_of_nat (List.length requests) ++ nl
    ++ "- Replies Received: " ++ str_of_nat n_replies ++ nl
    ++ nl
    ++ "Update Summary:" ++ nl
    ++ String.concat nl summary ++ nl in
  do! log Info ("Slide content updated for " ++ user_google_email ++ " - "
                ++ str_of_nat (List.length updates) ++ " updates.") in
  ret confirmation_message.

(** ** [copy_slide] *)

(** The search loop of [copy_slide] over [enumerate(slides)]:
    [insertion_index] after the loop, which stops at the first slide whose
    [objectId] is [source_page_object_id]. *)
Fixpoint find_insertion_index (source_page_object_id : string)
  (slides : list (nat * value)) : res (option nat) :=
  match slides with
  | [] => Ok None
  | (idx, slide) :: rest =>
      let? object_id := py_get slide "objectId" VNone in
      if py_eq_str object_id source_page_object_id then Ok (Some (idx + 1))
      else find_insertion_index source_page_object_id rest
  end.

(** [duplicate_request] of [copy_slide]. *)
Definition duplicate_request (source_page_object_id : string)
  (insertion_index : nat) : value :=
  VDict [("duplicateObject",
          VDict [("objectId", VStr source_page_object_id);
                 ("insertionIndex", VInt (Z.of_nat insertion_index))])].

(** [insertion_index] of [copy_slide], from the fetched [presentation]. *)
Definition locate_source (presentation : value) (source_page_object_id : string)
  : res (option nat) :=
  let? slides := py_get presentation "slides" (VList []) in
  let? slide_list := py_iter slides in
  find_insertion_index source_page_object_id (enumerate slide_list).

(** [new_slide_id] of [copy_slide], from the result of the duplication
    batch. *)
Definition new_slide_id_of (batch_result : value) : res value :=
  let? replies := py_get batch_result "replies" (VList [VDict []]) in
  let? reply := py_first replies in
  let? duplicated := py_get reply "duplicateObject" (VDict []) in
  py_get duplicated "objectId" VNone.

(** The body of the loop of [copy_slide] over [updates], for one [upd]:
    [update_requests] after it.  It has no last branch: an unknown
    [update_type] is passed over in silence. *)
Definition build_update_requests_step (update_requests : list value)
  (upd : dict) : list value :=
  let element_id := dict_get upd "element_id" VNone in
  let update_type := dict_get upd "update_type" VNone in
  if py_eq_str update_type "shape_text" then
    let text := dict_get upd "text" (VStr "") in
    let update_requests :=
      list_append update_requests
        (VDict [("deleteText",
                 VDict [("objectId", element_id);
                        ("textRange", VDict [("type", VStr "ALL")])])]) in
    let update_requests :=
      list_append update_requests
        (VDict [("insertText",
                 VDict [("objectId", element_id);
                        ("insertionIndex", VInt 0);
                        ("text", text)])]) in
    update_requests
  else if py_eq_str update_type "table_cell" then
    let row := dict_get upd "row" VNone in
    let col := dict_get upd "column" VNone in
    let text := dict_get upd "text" (VStr "") in
    let update_requests :=
      list_append update_requests
        (VDict [("deleteText",
                 VDict [("objectId", element_id);
                        ("cellLocation",
                         VDict [("rowIndex", row); ("columnIndex", col)]);
                        ("textRange", VDict [("type", VStr "ALL")])])]) in
    let update_requests :=
      list_append update_requests
        (VDict [("insertText",
                 VDict [("objectId", element_id);
                        ("cellLocation",
                         VDict [("rowIndex", row); ("columnIndex", col)]);
                        ("insertionIndex", VInt 0);
                        ("text", text)])]) in
    update_requests
  else if py_eq_str update_type "image_description" then
    let description := dict_get upd "description" (VStr "") in
    let update_requests :=
      list_append update_requests
        (VDict [("updateImageProperties",
                 VDict [("objectId", element_id);
                        ("fields", VStr "description");
                        ("imageProperties",
                         VDict [("description", description)])])]) in
    update_requests
  else update_requests.

(** The loop of [copy_slide] over [updates]: [update_requests] after it. *)
Definition build_update_requests (updates : list dict) : list value :=
  fold_left build_update_requests_step updates [].

(** [updates] of [copy_slide] defaults to [None]; [if updates] holds for a
    non-empty list only. *)
Definition given_updates (updates : option (list dict)) : list dict :=
  match updates with
  | Some l => l
  | None => []
  end.

Definition copy_slide
  (user_google_email presentation_id source_page_object_id : string)
  (updates : option (list dict)) : M string :=
  do! log Info ("[copy_slide] Invoked. Email: '" ++ user_google_email
                ++ "', Presentation: '" ++ presentation_id
                ++ "', Source Page: '" ++ source_page_object_id
                ++ "', Updates: "
                ++ str_of_nat (List.length (given_updates updates))) in
  let! presentation := execute (PresentationsGet presentation_id) in
  let! found := lift (locate_source presentation source_page_object_id) in
  match found with
  | None =>
      ret ("Source slide with object ID '" ++ source_page_object_id
           ++ "' not found.")
  | Some insertion_index =>
  let requests := [duplicate_request source_page_object_id insertion_index] in
  let! batch_result :=
    execute (BatchUpdate presentation_id (batch_body requests)) in
  let! new_slide_id := lift (new_slide_id_of batch_result) in
  if negb (truthy new_slide_id) then
    ret ("Failed to duplicate slide " ++ source_page_object_id ++ ".")
  else
  let! update_summary :=
    match given_updates updates with
    | [] => ret ""
    | upds =>
        let update_requests := build_update_requests upds in
        if truthy (VList update_requests) then
          let! update_result :=
            execute (BatchUpdate presentation_id (batch_body update_requests)) in
          let! update_replies :=
            lift (py_get update_result "replies" (VList [])) in
          let! n_replies := lift (py_len update_replies) in
          ret (nl ++ "- Updates Applied: "
                  ++ str_of_nat (List.length update_requests)
                  ++ " request(s) sent, " ++ str_of_nat n_replies
                  ++ " replies received.")
        else ret ""
    end in
  let confirmation_message :=
    "Slide Copied Successfully for " ++ user_google_email ++ ":" ++ nl
    ++ "- Presentation ID: " ++ presentation_id ++ nl
    ++ "- Source Page ID: " ++ source_page_object_id ++ nl
    ++ "- New Slide ID: " ++ py_str new_slide_id ++ nl
    ++ "- Insertion Index: " ++ str_of_nat insertion_index ++ nl
    ++ update_summary ++ nl
    ++ "- URL: https://docs.google.com/presentation/d/" ++ presentation_id
    ++ "/edit#slide=id." ++ py_str new_slide_id ++ nl in
  do! log Info ("Slide copied successfully for " ++ user_google_email
                ++ " - New ID: " ++ py_str new_slide_id) in
  ret confirmation_message
  end.

(** ** [get_presentation] *)

(** [enumerate(l, start)] *)
Definition enumerate_from {A} (start : nat) (l : list A) : list (nat * A) :=
  combine (seq start (List.length l)) l.

(** The body of the loop of [get_presentation] over [enumerate(slides, 1)]:
    the line appended to [slides_info] for the slide numbered [i]. *)
Definition slide_line (i : nat) (slide : value) : res string :=
  let? slide_id := py_get slide "objectId" (VStr "Unknown") in
  let? page_elements := py_get slide "pageElements" (VList []) in
  let? n := py_len page_elements in
  Ok ("  Slide " ++ str_of_nat i ++ ": ID " ++ py_str slide_id ++ ", "
        ++ str_of_nat n ++ " element(s)").

(** [slides_info] after the loop over [enumerate(slides, 1)]. *)
Definition slides_breakdown (slides : list value) : res (list string) :=
  for_each (fun slides_info i_slide =>
              let? line := slide_line (fst i_slide) (snd i_slide) in
              Ok (list_append slides_info line))
           (enumerate_from 1 slides) [].

(** [page_size.get(side, {}).get(field, default)] *)
Definition page_size_field (page_size : value) (side field : string)
  (default : value) : res value :=
  let? dimension := py_get page_size side (VDict []) in
  py_get dimension field default.

Definition get_presentation (user_google_email presentation_id : string)
  : M string :=
  do! log Info ("[get_presentation] Invoked. Email: '" ++ user_google_email
                ++ "', ID: '" ++ presentation_id ++ "'") in
  let! result := execute (PresentationsGet presentation_id) in
  let! title := lift (py_get result "title" (VStr "Untitled")) in
  let! slides := lift (py_get result "slides" (VList [])) in
  let! page_size := lift (py_get result "pageSize" (VDict [])) in
  let! slide_list := lift (py_iter slides) in
  let! slides_info := lift (slides_breakdown slide_list) in
  let! total := lift (py_len slides) in
  let! width :=
    lift (page_size_field page_size "width" "magnitude" (VStr "Unknown")) in
  let! height :=
    lift (page_size_field page_size "height" "magnitude" (VStr "Unknown")) in
  let! unit := lift (page_size_field page_size "width" "unit" (VStr "")) in
  let confirmation_message :=
    "Presentation Details for " ++ user_google_email ++ ":" ++ nl
    ++ "- Title: " ++ py_str title ++ nl
    ++ "- Presentation ID: " ++ presentation_id ++ nl
    ++ "- URL: https://docs.google.com/presentation/d/" ++ presentation_id
    ++ "/edit" ++ nl
    ++ "- Total Slides: " ++ str_of_nat total ++ nl
    ++ "- Page Size: " ++ py_str width ++ " x " ++ py_str height ++ " "
    ++ py_str unit ++ nl
    ++ nl
    ++ "Slides Breakdown:" ++ nl
    ++ match slides_info with
       | [] => "  No slides found"
       | _ => String.concat nl slides_info
       end in
  do! log Info ("Presentation retrieved successfully for " ++ user_google_email) in
  ret confirmation_message.

(** ** [batch_update_presentation] *)

(** The body of the loop of [batch_update_presentation] over
    [enumerate(replies, 1)]: [confirmation_message] after the reply numbered
    [i]. *)
Definition reply_step (confirmation_message : string) (i_reply : nat * value)
  : res string :=
  let i := fst i_reply in
  let reply := snd i_reply in
  let? has_slide := py_in "createSlide" reply in
  if has_slide then
    let? created := py_getitem reply "createSlide" in
    let? slide_id := py_get created "objectId" (VStr "Unknown") in
    Ok (confirmation_message ++ nl ++ "  Request " ++ str_of_nat i
          ++ ": Created slide with ID " ++ py_str slide_id)
  else
  let? has_shape := py_in "createShape" reply in
  if has_shape then
    let? created := py_getitem reply "createShape" in
    let? shape_id := py_get created "objectId" (VStr "Unknown") in
    Ok (confirmation_message ++ nl ++ "  Request " ++ str_of_nat i
          ++ ": Created shape with ID " ++ py_str shape_id)
  else
    Ok (confirmation_message ++ nl ++ "  Request " ++ str_of_nat i
          ++ ": Operation completed").

Definition batch_update_presentation
  (user_google_email presentation_id : string) (requests : list dict)
  : M string :=
  do! log Info ("[batch_update_presentation] Invoked. Email: '"
                ++ user_google_email ++ "', ID: '" ++ presentation_id
                ++ "', Requests: " ++ str_of_nat (List.length requests)) in
  let body := batch_body (map VDict requests) in
  let! result := execute (BatchUpdate presentation_id body) in
  let! replies := lift (py_get result "replies" (VList [])) in
  let! n_replies := lift (py_len replies) in
  let confirmation_message :=
    "Batch Update Completed for " ++ user_google_email ++ ":" ++ nl
    ++ "- Presentation ID: " ++ presentation_id ++ nl
    ++ "- URL: https://docs.google.com/presentation/d/" ++ presentation_id
    ++ "/edit" ++ nl
    ++ "- Requests Applied: " ++ str_of_nat (List.length requests) ++ nl
    ++ "- Replies Received: " ++ str_of_nat n_replies in
  let! confirmation_message :=
    if truthy replies then
      let confirmation_message :=
        confirmation_message ++ nl ++ nl ++ "Update Results:" in
      let! reply_list := lift (py_iter replies) in
      lift (for_each reply_step (enumerate_from 1 reply_list)
              confirmation_message)
    else ret confirmation_message in
  do! log Info ("Batch update completed successfully for " ++ user_google_email) in
  ret confirmation_message.

(** ** [create_slide] *)

(** The [request] of [create_slide]: [{"createSlide": {}}], to which the
    fields are added for the options that are not [None]. *)
Definition create_slide_request (insertion_index : option Z)
  (layout_id : option string) : value :=
  let fields : dict := [] in
  let fields :=
    match insertion_index with
    | Some i => list_append fields ("insertionIndex", VInt i)
    | None => fields
    end in
  let fields :=
    match layout_id with
    | Some l =>
        list_append fields
          ("slideLayoutReference", VDict [("layoutId", VStr l)])
    | None => fields
    end in
  VDict [("createSlide", VDict fields)].

(** An optional argument as the value an f-string formats. *)
Definition value_of_index (insertion_index : option Z) : value :=
  match insertion_index with
  | Some i => VInt i
  | None => VNone
  end.

Definition value_of_layout (layout_id : option string) : value :=
  match layout_id with
  | Some l => VStr l
  | None => VNone
  end.

(** [new_slide_id] of [create_slide], from the result of its batch. *)
Definition created_slide_id_of (result : value) : res value :=
  let? replies := py_get result "replies" (VList [VDict []]) in
  let? reply := py_first replies in
  let? created := py_get reply "createSlide" (VDict []) in
  py_get created "objectId" VNone.

Definition create_slide (user_google_email presentation_id : string)
  (insertion_index : option Z) (layout_id : option string) : M string :=
  do! log Info ("[create_slide] Invoked. Email: '" ++ user_google_email
                ++ "', Presentation: '" ++ presentation_id
                ++ "', Insertion Index: "
                ++ py_str (value_of_index insertion_index)
                ++ ", Layout ID: " ++ py_str (value_of_layout layout_id)) in
  let request := create_slide_request insertion_index layout_id in
  let requests := [request] in
  let! result :=
    execute (BatchUpdate presentation_id (batch_body requests)) in
  let! new_slide_id := lift (created_slide_id_of result) in
  if negb (truthy new_slide_id) then
    ret "Failed to create a new slide."
  else
  let confirmation_message :=
    "Slide Created Successfully for " ++ user_google_email ++ ":" ++ nl
    ++ "- Presentation ID: " ++ presentation_id ++ nl
    ++ "- New Slide ID: " ++ py_str new_slide_id ++ nl
    ++ "- Insertion Index: "
    ++ match insertion_index with
       | Some i => str_of_Z i
       | None => "end"
       end ++ nl
    ++ "- Layout ID: "
    ++ (if truthy (value_of_layout layout_id)
        then py_str (value_of_layout layout_id) else "default") ++ nl
    ++ "- URL: https://docs.google.com/presentation/d/" ++ presentation_id
    ++ "/edit#slide=id." ++ py_str new_slide_id ++ nl in
  do! log Info ("Slide created successfully for " ++ user_google_email
                ++ " - New ID: " ++ py_str new_slide_id) in
  ret confirmation_message.

End Tools.

(** ** Vocabulary of the specification *)

(** [upd.get("update_type")] and [upd.get("element_id")] *)
Definition update_type_of (upd : dict) : value := dict_get upd "update_type" VNone.
Definition element_id_of (upd : dict) : value := dict_get upd "element_id" VNone.

(** The spec [upd] has the update kind [kind]. *)
Definition has_type (kind : string) (upd : dict) : bool :=
  py_eq_str (update_type_of upd) kind.

(** The spec has one of the three known update kinds. *)
Definition known_type (upd : dict) : bool :=
  has_type "shape_text" upd || has_type "table_cell" upd
  || has_type "image_description" upd.

(** [count(kind)]: how many specs of the list have the update kind [kind]. *)
Definition count_type (kind : string) (updates : list dict) : nat :=
  List.length (filter (has_type kind) updates).

(** The number of primitive operations the specification promises for a list
    of specs: two per [shape_text], two per [table_cell], one per
    [image_description]. *)
Definition promised_length (updates : list dict) : nat :=
  2 * count_type "shape_text" updates + 2 * count_type "table_cell" updates
  + count_type "image_description" updates.

(** The primitive operation a request carries: the one key of the request. *)
Definition request_kind (request : value) : option string :=
  match request with
  | VDict [(kind, _)] => Some kind
  | _ => None
  end.

(** The object a request targets: the [objectId] of its payload. *)
Definition request_object_id (request : value) : option value :=
  match request with
  | VDict [(_, VDict payload)] => dict_lookup "objectId" payload
  | _ => None
  end.

(** The operations of one spec, in the words of the specification's
    Operation Compiler: for [shape_text] a [DeleteText] of the whole range
    followed by an [InsertText] at index 0; for [table_cell] the same pair
    scoped with the cell location on both; for [image_description] a single
    [UpdateImageProperties] of the field [description]; nothing for an
    unknown kind. *)
Definition spec_operations (upd : dict) : list value :=
  if has_type "shape_text" upd then
    [VDict [("deleteText",
             VDict [("objectId", element_id_of upd);
                    ("textRange", VDict [("type", VStr "ALL")])])];
     VDict [("insertText",
             VDict [("objectId", element_id_of upd);
                    ("insertionIndex", VInt 0);
                    ("text", dict_get upd "text" (VStr ""))])]]
  else if has_type "table_cell" upd then
    let location := VDict [("rowIndex", dict_get upd "row" VNone);
                           ("columnIndex", dict_get upd "column" VNone)] in
    [VDict [("deleteText",
             VDict [("objectId", element_id_of upd);
                    ("cellLocation", location);
                    ("textRange", VDict [("type", VStr "ALL")])])];
     VDict [("insertText",
             VDict [("objectId", element_id_of upd);
                    ("cellLocation", location);
                    ("insertionIndex", VInt 0);
                    ("text", dict_get upd "text" (VStr ""))])]]
  else if has_type "image_description" upd then
    [VDict [("updateImageProperties",
             VDict [("objectId", element_id_of upd);
                    ("fields", VStr "description");
                    ("imageProperties",
                     VDict [("description",
                             dict_get upd "description" (VStr ""))])])]]
  else [].

(** [compile] of the specification: the operations of every spec, in the
    order of the specs. *)
Definition spec_compile (updates : list dict) : list value :=
  flat_map spec_operations updates.

(** The summary line of one spec in [update_slide_content]. *)
Definition summary_line (repr_str : string -> string) (upd : dict) : string :=
  if has_type "shape_text" upd then
    "Shape (ID: " ++ py_str repr_str (element_id_of upd) ++ "): Text updated"
  else if has_type "table_cell" upd then
    "Table (ID: " ++ py_str repr_str (element_id_of upd) ++ "), Cell ("
      ++ py_str repr_str (dict_get upd "row" VNone) ++ ", "
      ++ py_str repr_str (dict_get upd "column" VNone) ++ "): Text updated"
  else if has_type "image_description" upd then
    "Image (ID: " ++ py_str repr_str (element_id_of upd) ++ "): Description updated"
  else
    "Element (ID: " ++ py_str repr_str (element_id_of upd)
      ++ "): Skipped (unknown type)".

(** The string contains a line break, the separator of the summary. *)
Fixpoint has_line_break (s : string) : bool :=
  match s with
  | String c s' => Ascii.eqb c (ascii_of_nat 10) || has_line_break s'
  | EmptyString => false
  end.

(** The slide has the object id [object_id]. *)
Definition has_object_id (object_id : string) (slide : value) : bool :=
  match slide with
  | VDict d => py_eq_str (dict_get d "objectId" VNone) object_id
  | _ => false
  end.

(** The warning [update_slide_content] logs for a spec of unknown kind. *)
Definition unknown_type_warning (repr_str : string -> string) (upd : dict)
  : event :=
  Logged Warning ("Unknown update_type '" ++ py_str repr_str (update_type_of upd)
                  ++ "' for element " ++ py_str repr_str (element_id_of upd)).

(** *** Page elements as the Slides API sends them

    Every field of a page element is optional; a field that is present has
    the type the API gives it.  The predicates below say so for the fields
    [get_slide_content] reads, and nothing about the others. *)

Definition is_dict (v : value) : bool :=
  match v with
  | VDict _ => true
  | _ => false
  end.

Definition is_str (v : value) : bool :=
  match v with
  | VStr _ => true
  | _ => false
  end.

(** [v] is a [dict] that satisfies [ok]. *)
Definition dict_with (ok : dict -> bool) (v : value) : bool :=
  match v with
  | VDict d => ok d
  | _ => false
  end.

(** [v] is a [list] whose items all satisfy [ok]. *)
Definition list_of (ok : value -> bool) (v : value) : bool :=
  match v with
  | VList l => forallb ok l
  | _ => false
  end.

(** The field [k] is missing from [d], or satisfies [ok]. *)
Definition optional (k : string) (ok : value -> bool) (d : dict) : bool :=
  match dict_lookup k d with
  | Some x => ok x
  | None => true
  end.

Definition text_run : value -> bool := dict_with (optional "content" is_str).
Definition text_element : value -> bool := dict_with (optional "textRun" text_run).
Definition text_content : value -> bool :=
  dict_with (optional "textElements" (list_of text_element)).
Definition shape_payload : value -> bool := dict_with (optional "text" text_content).
Definition table_cell : value -> bool := dict_with (optional "text" text_content).
Definition table_row : value -> bool :=
  dict_with (optional "tableCells" (list_of table_cell)).
Definition table_payload : value -> bool :=
  dict_with (optional "tableRows" (list_of table_row)).

(** A page element: any mix of the payloads [shape], [table], [image],
    [video] and [line], or none of them, and any other field. *)
Definition page_element : value -> bool :=
  dict_with (fun d =>
               optional "shape" shape_payload d
               && optional "table" table_payload d
               && optional "image" is_dict d
               && optional "video" is_dict d
               && optional "line" is_dict d).

(** A tool body only adds to the trace it starts from. *)
Definition extends {A} (m : M A) : Prop :=
  forall tr : list event, exists more, snd (m tr) = (tr ++ more)%list.

(** A tool body leaves a view of the trace (its calls, its warnings) as it
    found it. *)
Definition preserves {A X} (view : list event -> list X) (m : M A) : Prop :=
  forall tr : list event, view (snd (m tr)) = view tr.

(** *** Answers of the service as the tools read them *)

(** [len(v)] is defined. *)
Definition has_len (v : value) : bool :=
  match v with
  | VList _ | VDict _ | VStr _ => true
  | _ => false
  end.

(** A slide of a presentation, for [get_presentation]: a [dict] whose
    [pageElements], when present, can be counted. *)
Definition slide_entry : value -> bool :=
  dict_with (optional "pageElements" has_len).

(** The [pageSize] of a presentation: a [dict] whose [width] and [height],
    when present, are dicts. *)
Definition page_size_entry : value -> bool :=
  dict_with (fun d => optional "width" is_dict d && optional "height" is_dict d).

(** A page element, for [get_page]: a [dict] whose [shape], [table] and
    [line] payloads, when present, are dicts. *)
Definition page_entry : value -> bool :=
  dict_with (fun d =>
               optional "shape" is_dict d && optional "table" is_dict d
               && optional "line" is_dict d).

(** A reply of a batch: a [dict] whose [createSlide] and [createShape],
    when present, are dicts. *)
Definition reply_entry : value -> bool :=
  dict_with (fun d =>
               optional "createSlide" is_dict d
               && optional "createShape" is_dict d).

(** [payload.get('objectId', 'Unknown')] for a payload that is a [dict]. *)
Definition object_id_or_unknown (payload : value) : value :=
  match payload with
  | VDict d => dict_get d "objectId" (VStr "Unknown")
  | _ => VStr "Unknown"
  end.

(** What [batch_update_presentation] reports for one reply: a created slide
    first, else a created shape, else a completed operation. *)
Definition reply_text (repr_str : string -> string) (reply : value) : string :=
  match reply with
  | VDict d =>
      match dict_lookup "createSlide" d with
      | Some created =>
          "Created slide with ID "
            ++ py_str repr_str (object_id_or_unknown created)
      | None =>
          match dict_lookup "createShape" d with
          | Some created =>
              "Created shape with ID "
                ++ py_str repr_str (object_id_or_unknown created)
          | None => "Operation completed"
          end
      end
  | _ => "Operation completed"
  end.

(** The line [batch_update_presentation] adds for the reply numbered [i]. *)
Definition reply_line (repr_str : string -> string) (i_reply : nat * value)
  : string :=
  nl ++ "  Request " ++ str_of_nat (fst i_reply) ++ ": "
     ++ reply_text repr_str (snd i_reply).

(** [len(v)], and 0 where it is not defined. *)
Definition len_or_zero (v : value) : nat :=
  match py_len v with
  | Ok n => n
  | Raise _ => 0
  end.

(** [len(slide.get('pageElements', []))] for a slide that is a [dict]. *)
Definition element_count (slide : value) : nat :=
  match slide with
  | VDict d => len_or_zero (dict_get d "pageElements" (VList []))
  | _ => 0
  end.

(** [page_size.get(side, {}).get(field, default)] where [page_size] and
    its [side] are dicts. *)
Definition size_field (page_size : value) (side field : string)
  (default : value) : value :=
  match page_size with
  | VDict d =>
      match dict_get d side (VDict []) with
      | VDict dimension => dict_get dimension field default
      | _ => default
      end
  | _ => default
  end.

(** The string starts, or ends, with a whitespace character. *)
Definition starts_with_space (s : string) : bool :=
  match s with
  | String c _ => is_space c
  | EmptyString => false
  end.

Fixpoint ends_with_space (s : string) : bool :=
  match s with
  | String c EmptyString => is_space c
  | String _ s' => ends_with_space s'
  | EmptyString => false
  end.

(** The label [get_slide_content] gives an element: that of the first
    payload it carries among [shape], [table], [image], [video] and
    [line], in this order. *)
Definition block_label (d : dict) : string :=
  match dict_lookup "shape" d with
  | Some _ => "[Shape] ID: "
  | None =>
  match dict_lookup "table" d with
  | Some _ => "[Table] ID: "
  | None =>
  match dict_lookup "image" d with
  | Some _ => "[Image] ID: "
  | None =>
  match dict_lookup "video" d with
  | Some _ => "[Video] ID: "
  | None =>
  match dict_lookup "line" d with
  | Some _ => "[Line] ID: "
  | None => "[Element] ID: "
  end end end end end.

(** The strings of a list, one after the other. *)
Definition join_all (l : list string) : string := fold_right append "" l.

(** *** Sample data *)

(** A stand-in for [repr] on strings: single quotes, no escaping. *)
Definition sample_repr (s : string) : string := "'" ++ s ++ "'".

Definition sample_updates : list dict :=
  [[("element_id", VStr "S1"); ("update_type", VStr "shape_text");
    ("text", VStr "Hi")];
   [("element_id", VStr "X1"); ("update_type", VStr "bogus")];
   [("element_id", VStr "T1"); ("update_type", VStr "table_cell");
    ("row", VInt 0); ("column", VInt 1); ("text", VStr "cell")];
   [("element_id", VStr "I1"); ("update_type", VStr "image_description");
    ("description", VStr "a chart")]].

Definition bogus_updates : list dict :=
  [[("element_id", VStr "X1"); ("update_type", VStr "bogus")]].

Definition sample_elements : list value :=
  [VDict [("objectId", VStr "S1");
          ("shape",
           VDict [("shapeType", VStr "TEXT_BOX");
                  ("text",
                   VDict [("textElements",
                           VList [VDict [("paragraphMarker", VDict [])];
                                  VDict [("textRun",
                                          VDict [("content", VStr " Title ")])]])])])];
   VDict [("objectId", VStr "T1");
          ("table",
           VDict [("rows", VInt 1); ("columns", VInt 2);
                  ("tableRows",
                   VList [VDict [("tableCells",
                                  VList [VDict [];
                                         VDict [("text", VDict [])]])]])])];
   VDict [("objectId", VStr "I1"); ("image", VDict [])];
   VDict [("objectId", VStr "V1"); ("video", VDict [("url", VStr "https://v")])];
   VDict [("line", VDict [])];
   VDict []].

Definition sample_presentation : value :=
  VDict [("presentationId", VStr "P");
         ("slides",
          VList [VDict [("objectId", VStr "a")];
                 VDict [("objectId", VStr "b")];
                 VDict [("objectId", VStr "c")]])].

Definition sample_batch_result : value :=
  VDict [("replies",
          VList [VDict [("duplicateObject",
                         VDict [("objectId", VStr "copy")])]])].

(** A service that holds [sample_presentation] and answers every batch with
    the reply of a duplication. *)
Definition sample_remote (history : list call) (c : call) : res value :=
  match c with
  | PagesGet _ _ => Ok (VDict [("pageElements", VList sample_elements)])
  | PresentationsGet _ => Ok sample_presentation
  | BatchUpdate _ _ => Ok sample_batch_result
  end.

(** A service whose batches come back with one empty reply. *)
Definition empty_reply_remote (history : list call) (c : call) : res value :=
  match c with
  | BatchUpdate _ _ => Ok (VDict [("replies", VList [VDict []])])
  | _ => sample_remote history c
  end.

(** A service whose batches come back with three replies: a created slide,
    an empty reply and a created shape without id. *)
Definition replies_remote (history : list call) (c : call) : res value :=
  match c with
  | BatchUpdate _ _ =>
      Ok (VDict [("replies",
                  VList [VDict [("createSlide",
                                 VDict [("objectId", VStr "n1")])];
                         VDict [];
                         VDict [("createShape", VDict [])]])])
  | _ => sample_remote history c
  end.

(** A service whose batches come back with an empty list of replies. *)
Definition no_reply_remote (history : list call) (c : call) : res value :=
  match c with
  | BatchUpdate _ _ => Ok (VDict [("replies", VList [])])
  | _ => sample_remote history c
  end.

(** A service that fails every batch after its first two calls. *)
Definition failing_update_remote (history : list call) (c : call)
  : res value :=
  match c, history with
  | BatchUpdate _ _, _ :: _ :: _ => Raise (RemoteFailure "503")
  | _, _ => sample_remote history c
  end.

Definition sample_table : dict :=
  [("rows", VInt 1); ("columns", VInt 2);
   ("tableRows",
    VList [VDict [("tableCells",
                   VList [VDict [];
                          VDict [("text",
                                  VDict [("textElements",
                                          VList [VDict [("textRun",
                                                         VDict [("content",
                                                                 VStr " x ")])]])])]])]])].

(** ** Properties *)

Section Properties.

Variable repr_str : string -> string.
Variable remote : list call -> call -> res value.

Lemma py_eq_str_true (v : value) (s : string) :
  py_eq_str v s = true -> v = VStr s.
Proof.
  destruct v; simpl; try discriminate.
  intros H. apply String.eqb_eq in H. now subst.
Qed.

Lemma has_type_exclusive (k1 k2 : string) (upd : dict) :
  has_type k1 upd = true -> k1 <> k2 -> has_type k2 upd = false.
Proof.
  unfold has_type. intros H Hne.
  apply py_eq_str_true in H. rewrite H. simpl.
  now apply String.eqb_neq.
Qed.

(** *** Reading a [dict] *)

Lemma py_get_dict (d : dict) (k : string) (default : value) :
  py_get (VDict d) k default = Ok (dict_get d k default).
Proof. unfold py_get, dict_get. now destruct (dict_lookup k d). Qed.

Lemma py_in_some (d : dict) (k : string) (x : value) :
  dict_lookup k d = Some x -> py_in k (VDict d) = Ok true.
Proof. unfold py_in. now intros ->. Qed.

Lemma py_in_none (d : dict) (k : string) :
  dict_lookup k d = None -> py_in k (VDict d) = Ok false.
Proof. unfold py_in. now intros ->. Qed.

Lemma py_getitem_some (d : dict) (k : string) (x : value) :
  dict_lookup k d = Some x -> py_getitem (VDict d) k = Ok x.
Proof. unfold py_getitem. now intros ->. Qed.

(** *** The request loop of [update_slide_content] *)

(** The loop appends to [requests] the operations of each spec in turn and
    logs one warning per spec of unknown kind, whatever it starts from. *)
Lemma build_requests_loop (updates : list dict) :
  forall (requests : list value) (tr : list event),
    for_eachM (build_requests_step repr_str) updates requests tr
    = (Ok (requests ++ spec_compile updates)%list,
       (tr ++ map (unknown_type_warning repr_str)
                  (filter (fun upd => negb (known_type upd)) updates))%list).
Proof.
  induction updates as [|upd updates IH]; intros requests tr.
  - simpl. unfold ret. now rewrite !app_nil_r.
  - cbn [for_eachM]. unfold bind at 1, build_requests_step at 1.
    unfold spec_compile. cbn [flat_map filter].
    unfold spec_operations, known_type, has_type, update_type_of, element_id_of.
    destruct (py_eq_str (dict_get upd "update_type" VNone) "shape_text") eqn:E1.
    { cbn [ret orb negb]. rewrite IH. unfold list_append.
      now rewrite <- !app_assoc. }
    destruct (py_eq_str (dict_get upd "update_type" VNone) "table_cell") eqn:E2.
    { cbn [ret orb negb]. rewrite IH. unfold list_append.
      now rewrite <- !app_assoc. }
    destruct (py_eq_str (dict_get upd "update_type" VNone) "image_description") eqn:E3.
    { cbn [ret orb negb]. rewrite IH. unfold list_append.
      now rewrite <- !app_assoc. }
    cbn [orb negb map]. unfold bind, log, ret. rewrite IH.
    unfold unknown_type_warning, update_type_of, element_id_of.
    now rewrite <- !app_assoc.
Qed.

Lemma build_requests_run (updates : list dict) (tr : list event) :
  build_requests repr_str updates tr
  = (Ok (spec_compile updates),
     (tr ++ map (unknown_type_warning repr_str)
                (filter (fun upd => negb (known_type upd)) updates))%list).
Proof.
  unfold build_requests. now rewrite build_requests_loop.
Qed.

Lemma spec_operations_length (upd : dict) :
  List.length (spec_operations upd)
  = 2 * (if has_type "shape_text" upd then 1 else 0)
    + 2 * (if has_type "table_cell" upd then 1 else 0)
    + (if has_type "image_description" upd then 1 else 0).
Proof.
  unfold spec_operations.
  destruct (has_type "shape_text" upd) eqn:E1.
  { rewrite (has_type_exclusive "shape_text" "table_cell" upd E1) by discriminate.
    now rewrite (has_type_exclusive "shape_text" "image_description" upd E1)
      by discriminate. }
  destruct (has_type "table_cell" upd) eqn:E2.
  { now rewrite (has_type_exclusive "table_cell" "image_description" upd E2)
      by discriminate. }
  now destruct (has_type "image_description" upd).
Qed.

Lemma count_type_cons (kind : string) (upd : dict) (updates : list dict) :
  count_type kind (upd :: updates)
  = (if has_type kind upd then 1 else 0) + count_type kind updates.
Proof.
  unfold count_type. simpl. now destruct (has_type kind upd).
Qed.

Lemma spec_compile_length (updates : list dict) :
  List.length (spec_compile updates) = promised_length updates.
Proof.
  unfold spec_compile, promised_length.
  induction updates as [|upd updates IH]; [reflexivity|].
  cbn [flat_map]. rewrite length_app, IH, spec_operations_length.
  rewrite !count_type_cons. lia.
Qed.

Lemma spec_compile_app (l1 l2 : list dict) :
  spec_compile (l1 ++ l2) = (spec_compile l1 ++ spec_compile l2)%list.
Proof. apply flat_map_app. Qed.

(** The operations of the spec at index [i] start right after the operations
    of the [i] specs before it. *)
Lemma spec_compile_at (updates : list dict) (i : nat) (upd : dict) :
  nth_error updates i = Some upd ->
  exists rest,
    spec_compile updates
    = (spec_compile (firstn i updates) ++ spec_operations upd ++ rest)%list.
Proof.
  intros H. destruct (nth_error_split updates i H) as (l1 & l2 & Hl & Hlen).
  exists (spec_compile l2). subst updates i.
  rewrite firstn_app, firstn_all, Nat.sub_diag. cbn [firstn].
  rewrite app_nil_r, spec_compile_app.
  unfold spec_compile at 2. cbn [flat_map]. reflexivity.
Qed.

Lemma nth_error_after {A} (l1 l2 : list A) :
  nth_error (l1 ++ l2) (List.length l1) = nth_error l2 0.
Proof.
  rewrite nth_error_app2 by lia. f_equal. lia.
Qed.

Lemma nth_error_after_S {A} (l1 l2 : list A) :
  nth_error (l1 ++ l2) (S (List.length l1)) = nth_error l2 1.
Proof.
  rewrite nth_error_app2 by lia. f_equal. lia.
Qed.

(** A list of specs compiles to nothing exactly when none of them has a known
    kind. *)
Lemma spec_compile_nil (updates : list dict) :
  spec_compile updates = [] ->
  forallb (fun upd => negb (known_type upd)) updates = true.
Proof.
  unfold spec_compile.
  induction updates as [|upd updates IH]; [reflexivity|].
  cbn [flat_map forallb]. intros H. apply app_eq_nil in H as [H1 H2].
  rewrite (IH H2), andb_true_r.
  unfold spec_operations in H1. unfold known_type.
  destruct (has_type "shape_text" upd); [discriminate|].
  destruct (has_type "table_cell" upd); [discriminate|].
  destruct (has_type "image_description" upd); [discriminate|reflexivity].
Qed.

Lemma unknown_compile_nil (updates : list dict) :
  forallb (fun upd => negb (known_type upd)) updates = true ->
  spec_compile updates = [].
Proof.
  unfold spec_compile.
  induction updates as [|upd updates IH]; [reflexivity|].
  cbn [flat_map forallb]. intros H. apply andb_true_iff in H as [H1 H2].
  rewrite (IH H2), app_nil_r.
  unfold spec_operations. unfold known_type in H1.
  destruct (has_type "shape_text" upd); [discriminate|].
  destruct (has_type "table_cell" upd); [discriminate|].
  destruct (has_type "image_description" upd); [discriminate|reflexivity].
Qed.

Lemma filter_all {A} (f : A -> bool) (l : list A) :
  forallb f l = true -> filter f l = l.
Proof.
  induction l as [|x l IH]; [reflexivity|].
  simpl. intros H. apply andb_true_iff in H as [H1 H2].
  now rewrite H1, IH.
Qed.

(** *** Running a tool body *)

Lemma bind_run {A B} (m : M A) (k : A -> M B) (tr tr' : list event) (a : A) :
  m tr = (Ok a, tr') -> bind m k tr = k a tr'.
Proof. unfold bind. now intros ->. Qed.

Lemma bind_log {B} (l : level) (msg : string) (k : unit -> M B)
  (tr : list event) :
  bind (log l msg) k tr = k tt (tr ++ [Logged l msg])%list.
Proof. reflexivity. Qed.

Lemma bind_lift {A B} (r : res A) (k : A -> M B) (tr : list event) (a : A) :
  r = Ok a -> bind (lift r) k tr = k a tr.
Proof. now intros ->. Qed.

Lemma bind_execute {B} (c : call) (k : value -> M B) (tr : list event)
  (v : value) :
  remote (calls tr) c = Ok v ->
  bind (execute remote c) k tr = k v (tr ++ [Called c])%list.
Proof. unfold bind, execute. now intros ->. Qed.

(** *** Traces *)

Lemma calls_app (tr1 tr2 : list event) :
  calls (tr1 ++ tr2) = (calls tr1 ++ calls tr2)%list.
Proof.
  induction tr1 as [|[c|l m] tr1 IH]; simpl; now rewrite ?IH.
Qed.

Lemma warnings_app (tr1 tr2 : list event) :
  warnings (tr1 ++ tr2) = (warnings tr1 ++ warnings tr2)%list.
Proof. apply filter_app. Qed.

Lemma batch_updates_app (tr1 tr2 : list event) :
  batch_updates (tr1 ++ tr2) = (batch_updates tr1 ++ batch_updates tr2)%list.
Proof. apply filter_app. Qed.

Lemma calls_unknown_type_warnings (updates : list dict) :
  calls (map (unknown_type_warning repr_str) updates) = [].
Proof. induction updates; simpl; auto. Qed.

Lemma warnings_unknown_type_warnings (updates : list dict) :
  warnings (map (unknown_type_warning repr_str) updates)
  = map (unknown_type_warning repr_str) updates.
Proof. induction updates; simpl; now rewrite ?IHupdates. Qed.

(** *** The requests of [update_slide_content] *)

(** C1.  For every list of update specs, the request list compiled by
    [update_slide_content] has exactly two requests per [shape_text] spec, two
    per [table_cell] spec and one per [image_description] spec, a spec of
    unknown kind contributing nothing.  The requests of the spec at index [i]
    start right after those of the [i] specs before it: a [shape_text] or
    [table_cell] spec gives a [deleteText] immediately followed by an
    [insertText] on the same element, an [image_description] spec gives one
    [updateImageProperties]. *)
Theorem update_requests_layout (updates : list dict) (tr : list event) :
  exists requests,
    fst (build_requests repr_str updates tr) = Ok requests /\
    requests = spec_compile updates /\
    List.length requests = promised_length updates /\
    forall (i : nat) (upd : dict),
      nth_error updates i = Some upd ->
      let k := promised_length (firstn i updates) in
      (has_type "shape_text" upd || has_type "table_cell" upd = true ->
       exists del ins,
         nth_error requests k = Some del /\
         nth_error requests (S k) = Some ins /\
         request_kind del = Some "deleteText" /\
         request_kind ins = Some "insertText" /\
         request_object_id del = Some (element_id_of upd) /\
         request_object_id ins = Some (element_id_of upd)) /\
      (has_type "image_description" upd = true ->
       exists img,
         nth_error requests k = Some img /\
         request_kind img = Some "updateImageProperties" /\
         request_object_id img = Some (element_id_of upd)).
Proof.
  exists (spec_compile updates).
  rewrite build_requests_run.
  split; [reflexivity|]. split; [reflexivity|].
  split; [apply spec_compile_length|].
  intros i upd H k. split.
  - intros Hk. destruct (spec_compile_at updates i upd H) as (rest & ->).
    subst k. rewrite <- spec_compile_length.
    rewrite nth_error_after, nth_error_after_S.
    unfold spec_operations.
    destruct (has_type "shape_text" upd) eqn:E1.
    { do 2 eexists. repeat split; reflexivity. }
    simpl in Hk. rewrite Hk.
    do 2 eexists. repeat split; reflexivity.
  - intros Hk. destruct (spec_compile_at updates i upd H) as (rest & ->).
    subst k. rewrite <- spec_compile_length.
    rewrite nth_error_after.
    unfold spec_operations.
    rewrite (has_type_exclusive "image_description" "shape_text" upd Hk)
      by discriminate.
    rewrite (has_type_exclusive "image_description" "table_cell" upd Hk)
      by discriminate.
    rewrite Hk. eexists. repeat split; reflexivity.
Qed.

(** With no spec of a known kind, [update_slide_content] stops after its
    first log line and the warnings of the specs. *)
Lemma update_slide_content_unknown_run
  (user_google_email presentation_id page_object_id : string)
  (updates : list dict) (tr : list event) :
  forallb (fun upd => negb (known_type upd)) updates = true ->
  exists msg,
    update_slide_content repr_str remote user_google_email presentation_id
      page_object_id updates tr
    = (Ok "No valid updates were provided.",
       (tr ++ Logged Info msg
           :: map (unknown_type_warning repr_str) updates)%list).
Proof.
  intros Hall. eexists. unfold update_slide_content.
  rewrite bind_log.
  rewrite (bind_run _ _ _ _ _ (build_requests_run _ _)).
  rewrite (unknown_compile_nil _ Hall), (filter_all _ _ Hall).
  cbn [truthy negb]. unfold ret.
  now rewrite <- app_assoc.
Qed.

Lemma batch_updates_unknown_type_warnings (updates : list dict) :
  batch_updates (map (unknown_type_warning repr_str) updates) = [].
Proof. induction updates; simpl; auto. Qed.

(** C2.  When the updates compile to no request at all,
    [update_slide_content] returns the "no valid updates" message and makes
    no remote call; this happens when no spec has a known kind (in
    particular for the empty list), and every spec then gets its warning. *)
Theorem no_valid_updates_short_circuit
  (user_google_email presentation_id page_object_id : string)
  (updates : list dict) (tr : list event) :
  fst (build_requests repr_str updates tr) = Ok [] ->
  let run := update_slide_content repr_str remote user_google_email
               presentation_id page_object_id updates tr in
  forallb (fun upd => negb (known_type upd)) updates = true /\
  fst run = Ok "No valid updates were provided." /\
  calls (snd run) = calls tr /\
  batch_updates (snd run) = batch_updates tr /\
  warnings (snd run)
  = (warnings tr ++ map (unknown_type_warning repr_str) updates)%list.
Proof.
  intros H run. rewrite build_requests_run in H. cbn [fst] in H.
  assert (Hnil : spec_compile updates = []) by congruence.
  pose proof (spec_compile_nil updates Hnil) as Hall.
  destruct (update_slide_content_unknown_run user_google_email presentation_id
              page_object_id updates tr Hall) as (msg & Hrun).
  subst run. rewrite Hrun. cbn [fst snd].
  rewrite calls_app, batch_updates_app, warnings_app.
  cbn [calls warnings batch_updates filter is_warning is_batch_update].
  fold (warnings (map (unknown_type_warning repr_str) updates)).
  rewrite calls_unknown_type_warnings, warnings_unknown_type_warnings.
  rewrite !app_nil_r.
  fold (batch_updates (map (unknown_type_warning repr_str) updates)).
  rewrite batch_updates_unknown_type_warnings, app_nil_r.
  repeat split; assumption.
Qed.

(** *** What [get_page] and [get_slide_content] render *)

(** What [get_slide_content] renders for a shape: the text of its runs,
    stripped, when that text is not empty before stripping, and the
    placeholder when it is. *)
Lemma shape_block (d shape : dict) (text : string) :
  dict_lookup "shape" d = Some (VDict shape) ->
  shape_text_content (VDict shape) = Ok text ->
  content_block repr_str (VDict d)
  = Ok ("[Shape] ID: " ++ py_str repr_str (dict_get d "objectId" (VStr "Unknown"))
          ++ ", Type: " ++ py_str repr_str (dict_get shape "shapeType" (VStr "Unknown"))
          ++ nl ++ "  Text: "
          ++ (if String.eqb text "" then "(empty)" else strip text)).
Proof.
  intros Hs Ht. unfold content_block.
  rewrite py_get_dict, (py_in_some _ _ _ Hs), (py_getitem_some _ _ _ Hs).
  cbn [res_bind]. rewrite py_get_dict, Ht. cbn [res_bind truthy].
  now destruct (String.eqb text "").
Qed.

(** A shape without a [text] field renders the placeholder [(empty)]. *)
Lemma shape_without_text (d shape : dict) :
  dict_lookup "shape" d = Some (VDict shape) ->
  dict_lookup "text" shape = None ->
  content_block repr_str (VDict d)
  = Ok ("[Shape] ID: " ++ py_str repr_str (dict_get d "objectId" (VStr "Unknown"))
          ++ ", Type: " ++ py_str repr_str (dict_get shape "shapeType" (VStr "Unknown"))
          ++ nl ++ "  Text: (empty)").
Proof.
  intros Hs Ht. rewrite (shape_block d shape "" Hs); [reflexivity|].
  unfold shape_text_content. now rewrite (py_in_none _ _ Ht).
Qed.

(** A table without rows renders the placeholder [(empty table)]. *)
Lemma table_without_rows (d table : dict) :
  dict_lookup "shape" d = None ->
  dict_lookup "table" d = Some (VDict table) ->
  dict_get table "tableRows" (VList []) = VList [] ->
  content_block repr_str (VDict d)
  = Ok ("[Table] ID: " ++ py_str repr_str (dict_get d "objectId" (VStr "Unknown"))
          ++ ", Size: " ++ py_str repr_str (dict_get table "rows" (VInt 0))
          ++ "x" ++ py_str repr_str (dict_get table "columns" (VInt 0))
          ++ nl ++ "    (empty table)").
Proof.
  intros Hs Ht Hr. unfold content_block.
  rewrite py_get_dict, (py_in_none _ _ Hs), (py_in_some _ _ _ Ht),
    (py_getitem_some _ _ _ Ht).
  cbn [res_bind]. rewrite !py_get_dict, Hr. reflexivity.
Qed.

(** C3.  A shape whose only text run is a line break, as the service sends
    for an empty text box: the concatenated text is not empty, its stripped
    form is, and [get_slide_content] renders that empty string after
    [Text: ] and not the placeholder [(empty)]. *)
Theorem whitespace_shape_renders_blank :
  let text_elements :=
    [VDict [("textRun", VDict [("content", VStr nl)])]] in
  let element :=
    VDict [("objectId", VStr "S1");
           ("shape",
            VDict [("shapeType", VStr "TEXT_BOX");
                   ("text", VDict [("textElements", VList text_elements)])])] in
  concat_text_runs text_elements "" = Ok nl /\
  strip nl = "" /\
  content_block repr_str element
  = Ok ("[Shape] ID: S1, Type: TEXT_BOX" ++ nl ++ "  Text: ") /\
  content_block repr_str element
  <> Ok ("[Shape] ID: S1, Type: TEXT_BOX" ++ nl ++ "  Text: (empty)").
Proof.
  cbv zeta. repeat split; try reflexivity.
  cbn. discriminate.
Qed.

(** C9.  An element without [shape], [table] and [line] payload, whatever
    else it carries, gets the generic line from [get_page]; when it carries
    an image, or no image and a video, [get_slide_content] renders the
    description of the one and the URL of the other. *)
Theorem get_page_ignores_image_and_video (d : dict) :
  dict_lookup "shape" d = None ->
  dict_lookup "table" d = None ->
  dict_lookup "line" d = None ->
  let element_id := py_str repr_str (dict_get d "objectId" (VStr "Unknown")) in
  get_page_line repr_str (VDict d)
  = Ok ("  Element: ID " ++ element_id ++ ", Type: Unknown") /\
  (forall image : dict,
     dict_lookup "image" d = Some (VDict image) ->
     content_block repr_str (VDict d)
     = Ok ("[Image] ID: " ++ element_id ++ nl ++ "  Description: "
             ++ (let description := dict_get image "description" (VStr "") in
                 if truthy description then py_str repr_str description
                 else "(no description)"))) /\
  (forall video : dict,
     dict_lookup "image" d = None ->
     dict_lookup "video" d = Some (VDict video) ->
     content_block repr_str (VDict d)
     = Ok ("[Video] ID: " ++ element_id ++ nl ++ "  URL: "
             ++ py_str repr_str (dict_get video "url" (VStr "(unknown)")))).
Proof.
  intros Hs Ht Hl element_id. subst element_id.
  split; [|split].
  - unfold get_page_line.
    rewrite py_get_dict, (py_in_none _ _ Hs), (py_in_none _ _ Ht),
      (py_in_none _ _ Hl).
    reflexivity.
  - intros image Hi. unfold content_block.
    rewrite py_get_dict, (py_in_none _ _ Hs), (py_in_none _ _ Ht),
      (py_in_some _ _ _ Hi), (py_getitem_some _ _ _ Hi).
    cbn [res_bind]. now rewrite py_get_dict.
  - intros video Hi Hv. unfold content_block.
    rewrite py_get_dict, (py_in_none _ _ Hs), (py_in_none _ _ Ht),
      (py_in_none _ _ Hi), (py_in_some _ _ _ Hv), (py_getitem_some _ _ _ Hv).
    cbn [res_bind]. now rewrite py_get_dict.
Qed.

(** *** Totality of the content extraction *)

Lemma dict_with_inv (ok : dict -> bool) (v : value) :
  dict_with ok v = true -> exists d, v = VDict d /\ ok d = true.
Proof. destruct v; simpl; try discriminate. intros H. now exists d. Qed.

Lemma list_of_inv (ok : value -> bool) (v : value) :
  list_of ok v = true -> exists l, v = VList l /\ forallb ok l = true.
Proof. destruct v; simpl; try discriminate. intros H. now exists l. Qed.

(** A loop that appends one result per item succeeds when its body does on
    every item, and appends exactly one result per item, in order. *)
Lemma for_each_collect {A B} (f : A -> res B) (xs : list A) :
  Forall (fun x => exists b, f x = Ok b) xs ->
  forall acc : list B,
  exists bs,
    for_each (fun acc x => let? b := f x in Ok (list_append acc b)) xs acc
    = Ok (acc ++ bs)%list /\
    Forall2 (fun x b => f x = Ok b) xs bs.
Proof.
  induction 1 as [|x xs (b & Hb) _ IH]; intros acc.
  - exists []. simpl. now rewrite app_nil_r.
  - destruct (IH (list_append acc b)) as (bs & Hrun & Hall).
    exists (b :: bs). cbn [for_each]. rewrite Hb. cbn [res_bind].
    rewrite Hrun. unfold list_append. rewrite <- app_assoc.
    split; [reflexivity|]. now constructor.
Qed.

Lemma Forall_enumerate {A} (P : A -> Prop) (l : list A) :
  Forall P l -> Forall (fun p => P (snd p)) (enumerate l).
Proof.
  intros H. apply Forall_forall. intros [i x] Hin.
  apply in_combine_r in Hin. simpl.
  rewrite Forall_forall in H. now apply H.
Qed.

Lemma concat_text_runs_total (tes : list value) :
  forallb text_element tes = true ->
  forall text : string, exists t, concat_text_runs tes text = Ok t.
Proof.
  unfold concat_text_runs.
  induction tes as [|te tes IH]; intros H text.
  - now exists text.
  - cbn [forallb] in H. apply andb_true_iff in H as [Hte Htes].
    apply dict_with_inv in Hte as (d & -> & Hd).
    cbn [for_each]. unfold optional in Hd.
    destruct (dict_lookup "textRun" d) as [run|] eqn:Hrun.
    + rewrite (py_in_some _ _ _ Hrun), (py_getitem_some _ _ _ Hrun).
      cbn [res_bind].
      apply dict_with_inv in Hd as (rd & -> & Hrd).
      rewrite py_get_dict. cbn [res_bind].
      unfold optional in Hrd. unfold dict_get.
      destruct (dict_lookup "content" rd) as [c|].
      * destruct c; try discriminate. cbn [py_add_str res_bind]. now apply IH.
      * cbn [py_add_str res_bind]. now apply IH.
    + rewrite (py_in_none _ _ Hrun). cbn [res_bind]. now apply IH.
Qed.

(** The text of a text body: the [textElements] loop succeeds. *)
Lemma text_body_total (t : value) :
  text_content t = true ->
  exists s,
    (let? text_elements := py_get t "textElements" (VList []) in
     let? tes := py_iter text_elements in
     concat_text_runs tes "") = Ok s.
Proof.
  intros H. apply dict_with_inv in H as (d & -> & Hd).
  rewrite py_get_dict. cbn [res_bind].
  unfold optional in Hd. unfold dict_get.
  destruct (dict_lookup "textElements" d) as [tes|].
  - apply list_of_inv in Hd as (l & -> & Hl). cbn [py_iter res_bind].
    now apply concat_text_runs_total.
  - cbn [py_iter res_bind]. now apply concat_text_runs_total.
Qed.

Lemma shape_text_content_total (shape : value) :
  shape_payload shape = true -> exists s, shape_text_content shape = Ok s.
Proof.
  intros H. apply dict_with_inv in H as (d & -> & Hd).
  unfold shape_text_content. unfold optional in Hd.
  destruct (dict_lookup "text" d) as [t|] eqn:Ht.
  - rewrite (py_in_some _ _ _ Ht), (py_getitem_some _ _ _ Ht).
    cbn [res_bind]. now apply text_body_total.
  - rewrite (py_in_none _ _ Ht). cbn [res_bind]. now exists "".
Qed.

Lemma cell_text_of_total (cell : value) :
  table_cell cell = true -> exists s, cell_text_of cell = Ok s.
Proof.
  intros H. apply dict_with_inv in H as (d & -> & Hd).
  unfold cell_text_of. rewrite py_get_dict. cbn [res_bind].
  assert (Ht : text_content (dict_get d "text" (VDict [])) = true).
  { unfold optional in Hd. unfold dict_get.
    now destruct (dict_lookup "text" d). }
  destruct (text_body_total _ Ht) as (s & Hs).
  unfold res_bind in *.
  destruct (py_get (dict_get d "text" (VDict [])) "textElements" (VList []));
    [|discriminate].
  destruct (py_iter a); [|discriminate].
  rewrite Hs. now eexists.
Qed.

Lemma table_row_line_total (row : value) (row_idx : nat) :
  table_row row = true -> exists s, table_row_line repr_str row_idx row = Ok s.
Proof.
  intros H. apply dict_with_inv in H as (d & -> & Hd).
  unfold table_row_line. rewrite py_get_dict. cbn [res_bind].
  assert (Hc : exists cs, py_iter (dict_get d "tableCells" (VList [])) = Ok cs
                          /\ forallb table_cell cs = true).
  { unfold optional in Hd. unfold dict_get.
    destruct (dict_lookup "tableCells" d).
    - apply list_of_inv in Hd as (l & -> & Hl). now exists l.
    - now exists []. }
  destruct Hc as (cs & -> & Hcs). cbn [res_bind].
  destruct (for_each_collect (fun col_cell : nat * value => cell_text_of (snd col_cell))
              (enumerate cs)) with (acc := @nil string) as (bs & Hrun & _).
  { apply Forall_enumerate with (P := fun c => exists b, cell_text_of c = Ok b).
    apply Forall_forall. intros c Hin. apply cell_text_of_total.
    rewrite forallb_forall in Hcs. now apply Hcs. }
  rewrite Hrun. cbn [res_bind]. now eexists.
Qed.

Lemma table_block_total (d : dict) (table : value) :
  table_payload table = true ->
  exists b,
    (let? rows := py_get table "rows" (VInt 0) in
     let? cols := py_get table "columns" (VInt 0) in
     let? cells := py_get table "tableRows" (VList []) in
     let? rs := py_iter cells in
     let? table_content :=
       for_each (fun table_content idx_row =>
                   let? line := table_row_line repr_str (fst idx_row) (snd idx_row) in
                   Ok (list_append table_content line))
                (enumerate rs) [] in
     Ok ("[Table] ID: " ++ py_str repr_str (dict_get d "objectId" (VStr "Unknown"))
           ++ ", Size: " ++ py_str repr_str rows
           ++ "x" ++ py_str repr_str cols ++ nl
           ++ match table_content with
              | [] => "    (empty table)"
              | _ => String.concat nl table_content
              end)) = Ok b.
Proof.
  intros H. apply dict_with_inv in H as (t & -> & Hd).
  rewrite !py_get_dict. cbn [res_bind].
  assert (Hr : exists rs, py_iter (dict_get t "tableRows" (VList [])) = Ok rs
                          /\ forallb table_row rs = true).
  { unfold optional in Hd. unfold dict_get.
    destruct (dict_lookup "tableRows" t).
    - apply list_of_inv in Hd as (l & -> & Hl). now exists l.
    - now exists []. }
  destruct Hr as (rs & -> & Hrs). cbn [res_bind].
  destruct (for_each_collect
              (fun idx_row : nat * value =>
                 table_row_line repr_str (fst idx_row) (snd idx_row))
              (enumerate rs)) with (acc := @nil string) as (bs & Hrun & _).
  { apply Forall_forall. intros [i r] Hin. cbn [fst snd].
    apply table_row_line_total. apply in_combine_r in Hin.
    rewrite forallb_forall in Hrs. now apply Hrs. }
  rewrite Hrun. cbn [res_bind]. now eexists.
Qed.

(** Every page element gets a block. *)
Lemma content_block_total (element : value) :
  page_element element = true ->
  exists block, content_block repr_str element = Ok block.
Proof.
  intros H. apply dict_with_inv in H as (d & -> & Hd).
  apply andb_true_iff in Hd as [Hd Hline].
  apply andb_true_iff in Hd as [Hd Hvideo].
  apply andb_true_iff in Hd as [Hd Himage].
  apply andb_true_iff in Hd as [Hshape Htable].
  unfold optional in *.
  unfold content_block. rewrite py_get_dict. cbn [res_bind].
  destruct (dict_lookup "shape" d) as [shape|] eqn:Es.
  { rewrite (py_in_some _ _ _ Es), (py_getitem_some _ _ _ Es). cbn [res_bind].
    destruct (shape_text_content_total _ Hshape) as (s & Hs). rewrite Hs.
    apply dict_with_inv in Hshape as (sd & -> & _).
    rewrite py_get_dict. cbn [res_bind]. now eexists. }
  rewrite (py_in_none _ _ Es). cbn [res_bind].
  destruct (dict_lookup "table" d) as [table|] eqn:Et.
  { rewrite (py_in_some _ _ _ Et), (py_getitem_some _ _ _ Et). cbn [res_bind].
    now apply table_block_total. }
  rewrite (py_in_none _ _ Et). cbn [res_bind].
  destruct (dict_lookup "image" d) as [image|] eqn:Ei.
  { rewrite (py_in_some _ _ _ Ei), (py_getitem_some _ _ _ Ei). cbn [res_bind].
    destruct image; try discriminate. rewrite py_get_dict. now eexists. }
  rewrite (py_in_none _ _ Ei). cbn [res_bind].
  destruct (dict_lookup "video" d) as [video|] eqn:Ev.
  { rewrite (py_in_some _ _ _ Ev), (py_getitem_some _ _ _ Ev). cbn [res_bind].
    destruct video; try discriminate. rewrite py_get_dict. now eexists. }
  rewrite (py_in_none _ _ Ev). cbn [res_bind].
  destruct (dict_lookup "line" d) as [line|] eqn:El.
  { rewrite (py_in_some _ _ _ El), (py_getitem_some _ _ _ El). cbn [res_bind].
    destruct line; try discriminate. rewrite py_get_dict. now eexists. }
  rewrite (py_in_none _ _ El). cbn [res_bind]. now eexists.
Qed.

Lemma extract_blocks (page_elements : list value) :
  forallb page_element page_elements = true ->
  exists content_blocks,
    extract repr_str page_elements = Ok content_blocks /\
    Forall2 (fun element block => content_block repr_str element = Ok block)
            page_elements content_blocks.
Proof.
  intros H.
  destruct (for_each_collect (content_block repr_str) page_elements)
    with (acc := @nil string) as (bs & Hrun & Hall).
  { apply Forall_forall. intros e Hin. apply content_block_total.
    rewrite forallb_forall in H. now apply H. }
  now exists bs.
Qed.

(** The whole tool returns its summary when the service answers with a page
    of page elements. *)
Lemma get_slide_content_returns
  (user_google_email presentation_id page_object_id : string)
  (tr : list event) (result : dict) (page_elements : list value) :
  remote (calls tr) (PagesGet presentation_id page_object_id)
  = Ok (VDict result) ->
  dict_get result "pageElements" (VList []) = VList page_elements ->
  forallb page_element page_elements = true ->
  exists message,
    fst (get_slide_content repr_str remote user_google_email presentation_id
           page_object_id tr) = Ok message.
Proof.
  intros Hget Hpage Hall.
  destruct (extract_blocks page_elements Hall) as (blocks & Hrun & _).
  unfold get_slide_content. rewrite bind_log.
  rewrite bind_execute with (v := VDict result).
  2:{ rewrite calls_app. cbn [calls]. now rewrite app_nil_r. }
  rewrite (bind_lift _ _ _ _ (py_get_dict _ _ _)), Hpage.
  rewrite bind_lift with (a := page_elements) by reflexivity.
  rewrite (bind_lift _ _ _ _ Hrun).
  rewrite bind_lift with (a := List.length page_elements) by reflexivity.
  rewrite bind_log. unfold ret. cbn [fst]. now eexists.
Qed.

(** A payload of the wrong type is outside the page elements: the walk
    raises on it. *)
Example null_shape_raises :
  page_element (VDict [("shape", VNone)]) = false /\
  content_block repr_str (VDict [("shape", VNone)]) = Raise AttributeError.
Proof. split; reflexivity. Qed.

(** C4.  The extraction of [get_slide_content] is total on page elements:
    whatever payloads the elements carry and whatever optional fields they
    lack, the loop ends without raising and has appended exactly one block
    per element, the block of the element at the same index. *)
Theorem extract_total (page_elements : list value) :
  forallb page_element page_elements = true ->
  exists content_blocks,
    extract repr_str page_elements = Ok content_blocks /\
    List.length content_blocks = List.length page_elements /\
    Forall2 (fun element block => content_block repr_str element = Ok block)
            page_elements content_blocks.
Proof.
  intros H. destruct (extract_blocks page_elements H) as (bs & Hrun & Hall).
  exists bs. split; [exact Hrun|]. split; [|exact Hall].
  symmetry. exact (Forall2_length Hall).
Qed.

(** *** The summary of [update_slide_content] *)

Lemma summarize_step_line (st : list string * nat) (upd : dict) :
  fst (summarize_step repr_str st upd)
  = list_append (fst st) (summary_line repr_str upd).
Proof.
  destruct st as [summary update_idx].
  unfold summarize_step, summary_line, has_type, update_type_of, element_id_of.
  destruct (py_eq_str (dict_get upd "update_type" VNone) "shape_text");
    [reflexivity|].
  destruct (py_eq_str (dict_get upd "update_type" VNone) "table_cell");
    [reflexivity|].
  now destruct (py_eq_str (dict_get upd "update_type" VNone) "image_description").
Qed.

Lemma summarize_loop (updates : list dict) :
  forall st : list string * nat,
    fst (fold_left (summarize_step repr_str) updates st)
    = (fst st ++ map (summary_line repr_str) updates)%list.
Proof.
  induction updates as [|upd updates IH]; intros st.
  - simpl. now rewrite app_nil_r.
  - cbn [fold_left map]. rewrite IH, summarize_step_line.
    unfold list_append. now rewrite <- app_assoc.
Qed.

Lemma summarize_lines (updates : list dict) :
  fst (summarize repr_str updates) = map (summary_line repr_str) updates.
Proof. unfold summarize. now rewrite summarize_loop. Qed.

Lemma known_compile_not_nil (updates : list dict) :
  existsb known_type updates = true ->
  truthy (VList (spec_compile updates)) = true.
Proof.
  intros H. cbn [truthy].
  destruct (spec_compile updates) eqn:E; [|reflexivity].
  apply spec_compile_nil in E.
  apply existsb_exists in H as (upd & Hin & Hk).
  rewrite forallb_forall in E. specialize (E upd Hin).
  rewrite Hk in E. discriminate.
Qed.

Lemma has_line_break_app (s1 s2 : string) :
  has_line_break (s1 ++ s2) = has_line_break s1 || has_line_break s2.
Proof.
  induction s1 as [|c s1 IH]; [reflexivity|].
  simpl. now rewrite IH, orb_assoc.
Qed.

(** A summary entry is one line when the values it shows are. *)
Lemma summary_line_one_line (upd : dict) :
  has_line_break (py_str repr_str (element_id_of upd)) = false ->
  has_line_break (py_str repr_str (dict_get upd "row" VNone)) = false ->
  has_line_break (py_str repr_str (dict_get upd "column" VNone)) = false ->
  has_line_break (summary_line repr_str upd) = false.
Proof.
  intros Hid Hrow Hcol. unfold summary_line.
  destruct (has_type "shape_text" upd);
    [|destruct (has_type "table_cell" upd);
      [|destruct (has_type "image_description" upd)]];
    rewrite !has_line_break_app, ?Hid, ?Hrow, ?Hcol; reflexivity.
Qed.

(** With a spec of a known kind, [update_slide_content] makes one remote
    call: the batch of the compiled requests. *)
Lemma update_slide_content_one_batch
  (user_google_email presentation_id page_object_id : string)
  (updates : list dict) (tr : list event) :
  existsb known_type updates = true ->
  calls (snd (update_slide_content repr_str remote user_google_email
                presentation_id page_object_id updates tr))
  = (calls tr
       ++ [BatchUpdate presentation_id (batch_body (spec_compile updates))])%list.
Proof.
  intros Hknown. unfold update_slide_content.
  rewrite bind_log.
  rewrite (bind_run _ _ _ _ _ (build_requests_run _ _)).
  rewrite (known_compile_not_nil _ Hknown). cbn [negb].
  unfold bind, execute, lift, log, ret.
  destruct (remote _ _) as [result|e]; cbn [snd].
  - destruct (py_get result "replies" (VList [])) as [replies|e]; cbn [snd].
    + destruct (py_len replies); cbn [snd];
        rewrite !calls_app, calls_unknown_type_warnings; cbn [calls];
        now rewrite !app_nil_r.
    + rewrite !calls_app, calls_unknown_type_warnings. cbn [calls].
      now rewrite !app_nil_r.
  - rewrite !calls_app, calls_unknown_type_warnings. cbn [calls].
    now rewrite !app_nil_r.
Qed.

(** The scenario of the specification: one [shape_text] update of [S1] with
    the text [Hi]. *)
Example shape_text_scenario :
  let updates := [[("element_id", VStr "S1"); ("update_type", VStr "shape_text");
                   ("text", VStr "Hi")]] in
  fst (build_requests repr_str updates [])
  = Ok [VDict [("deleteText",
                VDict [("objectId", VStr "S1");
                       ("textRange", VDict [("type", VStr "ALL")])])];
        VDict [("insertText",
                VDict [("objectId", VStr "S1");
                       ("insertionIndex", VInt 0);
                       ("text", VStr "Hi")])]] /\
  fst (summarize repr_str updates) = ["Shape (ID: S1): Text updated"].
Proof. split; reflexivity. Qed.

(** C8.  When at least one spec has a known kind and the batch comes back,
    the message returned by [update_slide_content] ends with the summary:
    one entry per spec, in the order of the specs, joined by line breaks,
    each entry on one line when the values it shows have no line break;
    the entry of a spec of unknown kind is
    [Element (ID: <element_id>): Skipped (unknown type)]. *)
Theorem update_summary_one_line_per_spec
  (user_google_email presentation_id page_object_id : string)
  (updates : list dict) (tr : list event) (result replies : value) (n : nat) :
  existsb known_type updates = true ->
  remote (calls tr)
         (BatchUpdate presentation_id (batch_body (spec_compile updates)))
  = Ok result ->
  py_get result "replies" (VList []) = Ok replies ->
  py_len replies = Ok n ->
  let summary := fst (summarize repr_str updates) in
  fst (update_slide_content repr_str remote user_google_email presentation_id
         page_object_id updates tr)
  = Ok ("Slide Content Update Results for " ++ user_google_email ++ ":" ++ nl
        ++ "- Presentation ID: " ++ presentation_id ++ nl
        ++ "- Page ID: " ++ page_object_id ++ nl
        ++ "- Updates Requested: " ++ str_of_nat (List.length updates) ++ nl
        ++ "- Requests Sent: "
        ++ str_of_nat (List.length (spec_compile updates)) ++ nl
        ++ "- Replies Received: " ++ str_of_nat n ++ nl
        ++ nl
        ++ "Update Summary:" ++ nl
        ++ String.concat nl summary ++ nl) /\
  summary = map (summary_line repr_str) updates /\
  List.length summary = List.length updates /\
  (forall (i : nat) (upd : dict),
     nth_error updates i = Some upd ->
     known_type upd = false ->
     nth_error summary i
     = Some ("Element (ID: " ++ py_str repr_str (element_id_of upd)
             ++ "): Skipped (unknown type)")) /\
  (forall (i : nat) (upd : dict) (line : string),
     nth_error updates i = Some upd ->
     nth_error summary i = Some line ->
     has_line_break (py_str repr_str (element_id_of upd)) = false ->
     has_line_break (py_str repr_str (dict_get upd "row" VNone)) = false ->
     has_line_break (py_str repr_str (dict_get upd "column" VNone)) = false ->
     has_line_break line = false).
Proof.
  intros Hknown Hremote Hreplies Hlen summary. subst summary.
  rewrite summarize_lines.
  split; [|split; [reflexivity|split; [apply length_map|split]]].
  - unfold update_slide_content.
    rewrite bind_log.
    rewrite (bind_run _ _ _ _ _ (build_requests_run _ _)).
    rewrite (known_compile_not_nil _ Hknown). cbn [negb].
    rewrite bind_execute with (v := result).
    2:{ rewrite !calls_app, calls_unknown_type_warnings. cbn [calls].
        now rewrite !app_nil_r. }
    rewrite (bind_lift _ _ _ _ Hreplies), (bind_lift _ _ _ _ Hlen).
    rewrite bind_log. unfold ret. cbn [fst].
    now rewrite summarize_lines.
  - intros i upd Hi Hk.
    rewrite nth_error_map, Hi. cbn [option_map]. f_equal.
    unfold summary_line. unfold known_type in Hk.
    destruct (has_type "shape_text" upd); [discriminate|].
    destruct (has_type "table_cell" upd); [discriminate|].
    destruct (has_type "image_description" upd); [discriminate|reflexivity].
  - intros i upd line Hi Hline Hid Hrow Hcol.
    rewrite nth_error_map, Hi in Hline. cbn [option_map] in Hline.
    injection Hline as <-. now apply summary_line_one_line.
Qed.

(** *** The search loop and the update loop of [copy_slide] *)

Lemma find_insertion_index_absent (source : string) (slides : list value) :
  forallb is_dict slides = true ->
  existsb (has_object_id source) slides = false ->
  forall n : nat,
    find_insertion_index source (combine (seq n (List.length slides)) slides)
    = Ok None.
Proof.
  induction slides as [|slide slides IH]; intros Hd Hn n; [reflexivity|].
  cbn [forallb existsb] in Hd, Hn.
  apply andb_true_iff in Hd as [Hslide Hd].
  apply orb_false_iff in Hn as [Hid Hn].
  destruct slide; try discriminate.
  cbn [List.length seq combine find_insertion_index].
  rewrite py_get_dict. cbn [res_bind]. cbn [has_object_id] in Hid.
  rewrite Hid. now apply IH.
Qed.

Lemma find_insertion_index_first (source : string)
  (before : list value) (slide : value) (after : list value) :
  forallb is_dict before = true ->
  existsb (has_object_id source) before = false ->
  has_object_id source slide = true ->
  forall n : nat,
    find_insertion_index source
      (combine (seq n (List.length (before ++ slide :: after)))
               (before ++ slide :: after))
    = Ok (Some (n + List.length before + 1)).
Proof.
  induction before as [|b before IH]; intros Hd Hn Hs n.
  - destruct slide; try discriminate.
    cbn [app List.length seq combine find_insertion_index].
    rewrite py_get_dict. cbn [res_bind]. cbn [has_object_id] in Hs.
    rewrite Hs. now rewrite Nat.add_0_r.
  - cbn [forallb existsb] in Hd, Hn.
    apply andb_true_iff in Hd as [Hb Hd].
    apply orb_false_iff in Hn as [Hid Hn].
    destruct b; try discriminate.
    cbn [app List.length seq combine find_insertion_index].
    rewrite py_get_dict. cbn [res_bind]. cbn [has_object_id] in Hid.
    rewrite Hid. rewrite (IH Hd Hn Hs (S n)). do 2 f_equal. lia.
Qed.

Lemma build_update_requests_step_spec (update_requests : list value)
  (upd : dict) :
  build_update_requests_step update_requests upd
  = (update_requests ++ spec_operations upd)%list.
Proof.
  unfold build_update_requests_step, spec_operations, has_type,
    update_type_of, element_id_of, list_append.
  destruct (py_eq_str (dict_get upd "update_type" VNone) "shape_text");
    [now rewrite <- app_assoc|].
  destruct (py_eq_str (dict_get upd "update_type" VNone) "table_cell");
    [now rewrite <- app_assoc|].
  destruct (py_eq_str (dict_get upd "update_type" VNone) "image_description");
    [reflexivity|now rewrite app_nil_r].
Qed.

(** [copy_slide] compiles its updates to the same requests as
    [update_slide_content]. *)
Lemma build_update_requests_spec (updates : list dict) :
  build_update_requests updates = spec_compile updates.
Proof.
  unfold build_update_requests.
  change (spec_compile updates) with ([] ++ spec_compile updates)%list.
  generalize (@nil value) as acc.
  induction updates as [|upd updates IH]; intros acc.
  - simpl. now rewrite app_nil_r.
  - cbn [fold_left]. rewrite IH, build_update_requests_step_spec.
    unfold spec_compile. cbn [flat_map]. now rewrite <- app_assoc.
Qed.

(** *** Tool bodies only add to the trace *)

Lemma extends_ret {A} (a : A) : extends (ret a).
Proof. intros tr. exists []. simpl. now rewrite app_nil_r. Qed.

Lemma extends_lift {A} (r : res A) : extends (lift r).
Proof. intros tr. exists []. simpl. now rewrite app_nil_r. Qed.

Lemma extends_log (l : level) (msg : string) : extends (log l msg).
Proof. intros tr. now exists [Logged l msg]. Qed.

Lemma extends_execute (c : call) : extends (execute remote c).
Proof. intros tr. now exists [Called c]. Qed.

Lemma extends_bind {A B} (m : M A) (k : A -> M B) :
  extends m -> (forall a, extends (k a)) -> extends (bind m k).
Proof.
  intros Hm Hk tr. unfold bind.
  destruct (Hm tr) as (more1 & H1).
  destruct (m tr) as [[a|e] tr1]; cbn [snd] in H1; subst tr1.
  - destruct (Hk a (tr ++ more1)%list) as (more2 & H2).
    exists (more1 ++ more2)%list. now rewrite H2, app_assoc.
  - now exists more1.
Qed.

Ltac extends_step :=
  first [ apply extends_ret | apply extends_lift | apply extends_log
        | apply extends_execute
        | apply extends_bind; [|intro]
        | match goal with
          | |- extends (if ?b then _ else _) => destruct b
          | |- extends (match ?x with _ => _ end) => destruct x
          end ].

(** The calls of a body that starts with a remote call: that call first,
    whatever the service answers and whatever follows. *)
Lemma calls_bind_execute {B} (c : call) (k : value -> M B) (tr : list event) :
  (forall v, extends (k v)) ->
  exists later,
    calls (snd (bind (execute remote c) k tr)) = (calls tr ++ c :: later)%list.
Proof.
  intros Hk. unfold bind, execute.
  destruct (remote (calls tr) c) as [v|e].
  - destruct (Hk v (tr ++ [Called c])%list) as (more & ->).
    exists (calls more). rewrite !calls_app. cbn [calls].
    now rewrite <- app_assoc.
  - exists []. cbn [snd]. now rewrite calls_app.
Qed.

Lemma locate_source_absent (presentation : value) (source : string)
  (slides : list value) :
  py_get presentation "slides" (VList []) = Ok (VList slides) ->
  forallb is_dict slides = true ->
  existsb (has_object_id source) slides = false ->
  locate_source presentation source = Ok None.
Proof.
  intros Hp Hd Hn. unfold locate_source. rewrite Hp. cbn [res_bind py_iter].
  now apply find_insertion_index_absent.
Qed.

Lemma locate_source_first (presentation : value) (source : string)
  (before : list value) (slide : value) (after : list value) :
  py_get presentation "slides" (VList [])
  = Ok (VList (before ++ slide :: after)) ->
  forallb is_dict before = true ->
  existsb (has_object_id source) before = false ->
  has_object_id source slide = true ->
  locate_source presentation source = Ok (Some (List.length before + 1)).
Proof.
  intros Hp Hd Hn Hs. unfold locate_source. rewrite Hp. cbn [res_bind py_iter].
  unfold enumerate.
  now rewrite (find_insertion_index_first source before slide after Hd Hn Hs 0).
Qed.

(** *** The calls and the message of [copy_slide] *)

(** C5.  When no slide of the fetched presentation has the object id
    [source_page_object_id], [copy_slide] returns the not-found message
    naming that id; its only remote call is the fetch, so it issues no
    [batchUpdate]. *)
Theorem copy_slide_source_not_found
  (user_google_email presentation_id source_page_object_id : string)
  (updates : option (list dict)) (tr : list event)
  (presentation : value) (slides : list value) :
  remote (calls tr) (PresentationsGet presentation_id) = Ok presentation ->
  py_get presentation "slides" (VList []) = Ok (VList slides) ->
  forallb is_dict slides = true ->
  existsb (has_object_id source_page_object_id) slides = false ->
  let run := copy_slide repr_str remote user_google_email presentation_id
               source_page_object_id updates tr in
  fst run = Ok ("Source slide with object ID '" ++ source_page_object_id
                ++ "' not found.") /\
  calls (snd run) = (calls tr ++ [PresentationsGet presentation_id])%list /\
  batch_updates (snd run) = batch_updates tr.
Proof.
  intros Hget Hslides Hd Hn run. subst run. unfold copy_slide.
  rewrite bind_log.
  rewrite bind_execute with (v := presentation).
  2:{ rewrite calls_app. cbn [calls]. now rewrite app_nil_r. }
  rewrite (bind_lift _ _ _ _ (locate_source_absent _ _ _ Hslides Hd Hn)).
  unfold ret. cbn [fst snd].
  rewrite !calls_app, !batch_updates_app.
  cbn [calls batch_updates filter is_batch_update].
  now rewrite !app_nil_r.
Qed.

(** C6.  When the first slide with the object id [source_page_object_id]
    is at position [length before] of the fetched slide list, the call that
    follows the fetch is the [batchUpdate] of one [duplicateObject] request
    whose [insertionIndex] is that position plus one, whatever comes after
    the source in the list. *)
Theorem copy_slide_insertion_index
  (user_google_email presentation_id source_page_object_id : string)
  (updates : option (list dict)) (tr : list event)
  (presentation : value) (before : list value) (slide : value)
  (after : list value) :
  remote (calls tr) (PresentationsGet presentation_id) = Ok presentation ->
  py_get presentation "slides" (VList [])
  = Ok (VList (before ++ slide :: after)) ->
  forallb is_dict before = true ->
  existsb (has_object_id source_page_object_id) before = false ->
  has_object_id source_page_object_id slide = true ->
  exists later,
    calls (snd (copy_slide repr_str remote user_google_email presentation_id
                  source_page_object_id updates tr))
    = (calls tr
         ++ PresentationsGet presentation_id
         :: BatchUpdate presentation_id
              (VDict [("requests",
                       VList [VDict [("duplicateObject",
                                      VDict [("objectId",
                                              VStr source_page_object_id);
                                             ("insertionIndex",
                                              VInt (Z.of_nat (List.length before) + 1))])]])])
         :: later)%list.
Proof.
  intros Hget Hslides Hd Hn Hs. unfold copy_slide.
  rewrite bind_log.
  rewrite bind_execute with (v := presentation).
  2:{ rewrite calls_app. cbn [calls]. now rewrite app_nil_r. }
  rewrite (bind_lift _ _ _ _ (locate_source_first _ _ _ _ _ Hslides Hd Hn Hs)).
  match goal with
  | |- context [bind (execute remote ?c) ?k ?t] =>
      destruct (calls_bind_execute c k t) as (later & Hlater)
  end.
  { intro v. repeat extends_step. }
  exists later. rewrite Hlater. rewrite !calls_app. cbn [calls].
  rewrite app_nil_r, <- app_assoc. cbn [app].
  unfold batch_body, duplicate_request.
  replace (Z.of_nat (List.length before + 1))
    with (Z.of_nat (List.length before) + 1)%Z by lia.
  reflexivity.
Qed.

(** C7.  When the source slide is found and the duplication batch comes
    back without a new object id in its first reply, [copy_slide] returns the
    duplication-failure message, and the duplication batch is its last
    remote call, whether or not updates were supplied. *)
Theorem copy_slide_duplication_failed
  (user_google_email presentation_id source_page_object_id : string)
  (updates : option (list dict)) (tr : list event)
  (presentation : value) (insertion_index : nat)
  (batch_result new_slide_id : value) :
  remote (calls tr) (PresentationsGet presentation_id) = Ok presentation ->
  locate_source presentation source_page_object_id = Ok (Some insertion_index) ->
  remote (calls tr ++ [PresentationsGet presentation_id])%list
         (BatchUpdate presentation_id
            (batch_body [duplicate_request source_page_object_id insertion_index]))
  = Ok batch_result ->
  new_slide_id_of batch_result = Ok new_slide_id ->
  truthy new_slide_id = false ->
  let run := copy_slide repr_str remote user_google_email presentation_id
               source_page_object_id updates tr in
  fst run = Ok ("Failed to duplicate slide " ++ source_page_object_id ++ ".") /\
  calls (snd run)
  = (calls tr
       ++ [PresentationsGet presentation_id;
           BatchUpdate presentation_id
             (batch_body [duplicate_request source_page_object_id
                            insertion_index])])%list.
Proof.
  intros Hget Hloc Hbatch Hid Hfalsy run. subst run. unfold copy_slide.
  rewrite bind_log.
  rewrite bind_execute with (v := presentation).
  2:{ rewrite calls_app. cbn [calls]. now rewrite app_nil_r. }
  rewrite (bind_lift _ _ _ _ Hloc).
  rewrite bind_execute with (v := batch_result).
  2:{ rewrite !calls_app. cbn [calls]. now rewrite app_nil_r. }
  rewrite (bind_lift _ _ _ _ Hid). rewrite Hfalsy. cbn [negb].
  unfold ret. cbn [fst snd]. split; [reflexivity|].
  rewrite !calls_app. cbn [calls]. rewrite app_nil_r, <- app_assoc.
  reflexivity.
Qed.

(** C10.  When the updates supplied to [copy_slide] are not empty and none
    has a known kind, and the duplication succeeds, [copy_slide] reports the
    copy with an empty update summary (no [Updates Applied] line), the
    duplication batch is its last remote call, and it logs no warning,
    while [update_slide_content] logs one warning per spec for the same
    updates. *)
Theorem copy_slide_unknown_updates_only
  (user_google_email presentation_id source_page_object_id : string)
  (updates : list dict) (tr : list event)
  (presentation : value) (insertion_index : nat)
  (batch_result new_slide_id : value) (page_object_id : string) :
  updates <> [] ->
  forallb (fun upd => negb (known_type upd)) updates = true ->
  remote (calls tr) (PresentationsGet presentation_id) = Ok presentation ->
  locate_source presentation source_page_object_id = Ok (Some insertion_index) ->
  remote (calls tr ++ [PresentationsGet presentation_id])%list
         (BatchUpdate presentation_id
            (batch_body [duplicate_request source_page_object_id insertion_index]))
  = Ok batch_result ->
  new_slide_id_of batch_result = Ok new_slide_id ->
  truthy new_slide_id = true ->
  let run := copy_slide repr_str remote user_google_email presentation_id
               source_page_object_id (Some updates) tr in
  fst run
  = Ok ("Slide Copied Successfully for " ++ user_google_email ++ ":" ++ nl
        ++ "- Presentation ID: " ++ presentation_id ++ nl
        ++ "- Source Page ID: " ++ source_page_object_id ++ nl
        ++ "- New Slide ID: " ++ py_str repr_str new_slide_id ++ nl
        ++ "- Insertion Index: " ++ str_of_nat insertion_index ++ nl
        ++ "" ++ nl
        ++ "- URL: https://docs.google.com/presentation/d/" ++ presentation_id
        ++ "/edit#slide=id." ++ py_str repr_str new_slide_id ++ nl) /\
  calls (snd run)
  = (calls tr
       ++ [PresentationsGet presentation_id;
           BatchUpdate presentation_id
             (batch_body [duplicate_request source_page_object_id
                            insertion_index])])%list /\
  warnings (snd run) = warnings tr /\
  warnings (snd (update_slide_content repr_str remote user_google_email
                   presentation_id page_object_id updates tr))
  = (warnings tr ++ map (unknown_type_warning repr_str) updates)%list.
Proof.
  intros Hne Hall Hget Hloc Hbatch Hid Htruthy run.
  assert (Hrun : exists m1 m2,
             run = (Ok ("Slide Copied Successfully for " ++ user_google_email
                        ++ ":" ++ nl
                        ++ "- Presentation ID: " ++ presentation_id ++ nl
                        ++ "- Source Page ID: " ++ source_page_object_id ++ nl
                        ++ "- New Slide ID: " ++ py_str repr_str new_slide_id ++ nl
                        ++ "- Insertion Index: " ++ str_of_nat insertion_index ++ nl
                        ++ "" ++ nl
                        ++ "- URL: https://docs.google.com/presentation/d/"
                        ++ presentation_id
                        ++ "/edit#slide=id." ++ py_str repr_str new_slide_id ++ nl),
                    (tr ++ [Logged Info m1;
                            Called (PresentationsGet presentation_id);
                            Called (BatchUpdate presentation_id
                                      (batch_body [duplicate_request
                                                     source_page_object_id
                                                     insertion_index]));
                            Logged Info m2])%list)).
  { do 2 eexists. subst run. unfold copy_slide.
    rewrite bind_log.
    rewrite bind_execute with (v := presentation).
    2:{ rewrite calls_app. cbn [calls]. now rewrite app_nil_r. }
    rewrite (bind_lift _ _ _ _ Hloc).
    rewrite bind_execute with (v := batch_result).
    2:{ rewrite !calls_app. cbn [calls]. now rewrite app_nil_r. }
    rewrite (bind_lift _ _ _ _ Hid). rewrite Htruthy. cbn [negb given_updates].
    destruct updates as [|upd updates]; [congruence|].
    rewrite build_update_requests_spec, (unknown_compile_nil _ Hall).
    cbn [truthy]. unfold bind at 1, ret at 1.
    rewrite bind_log. unfold ret.
    rewrite <- !app_assoc. reflexivity. }
  destruct Hrun as (m1 & m2 & ->). cbn [fst snd].
  split; [reflexivity|].
  rewrite calls_app, warnings_app.
  cbn [calls warnings filter is_warning]. rewrite app_nil_r.
  split; [reflexivity|]. split; [reflexivity|].
  destruct (update_slide_content_unknown_run user_google_email presentation_id
              page_object_id updates tr Hall) as (msg & ->).
  cbn [snd]. rewrite warnings_app.
  cbn [warnings filter is_warning].
  fold (warnings (map (unknown_type_warning repr_str) updates)).
  now rewrite warnings_unknown_type_warnings.
Qed.

(** *** What a tool body leaves untouched *)

Lemma preserves_ret {A X} (view : list event -> list X) (a : A) :
  preserves view (ret a).
Proof. intros tr. reflexivity. Qed.

Lemma preserves_lift {A X} (view : list event -> list X) (r : res A) :
  preserves view (lift r).
Proof. intros tr. reflexivity. Qed.

Lemma preserves_bind {A B X} (view : list event -> list X)
  (m : M A) (k : A -> M B) :
  preserves view m -> (forall a, preserves view (k a)) ->
  preserves view (bind m k).
Proof.
  intros Hm Hk tr. unfold bind. specialize (Hm tr).
  destruct (m tr) as [[a|e] tr1]; cbn [snd] in Hm.
  - now rewrite Hk.
  - exact Hm.
Qed.

Lemma log_no_call (l : level) (msg : string) : preserves calls (log l msg).
Proof.
  intros tr. unfold log. cbn [snd]. rewrite calls_app. cbn [calls].
  now rewrite app_nil_r.
Qed.

Lemma log_info_no_warning (msg : string) : preserves warnings (log Info msg).
Proof.
  intros tr. unfold log. cbn [snd]. rewrite warnings_app.
  cbn [warnings filter is_warning]. now rewrite app_nil_r.
Qed.

Lemma execute_no_warning (c : call) : preserves warnings (execute remote c).
Proof.
  intros tr. unfold execute. cbn [snd]. rewrite warnings_app.
  cbn [warnings filter is_warning]. now rewrite app_nil_r.
Qed.

Ltac preserves_step :=
  first [ apply preserves_ret | apply preserves_lift | apply log_no_call
        | apply log_info_no_warning | apply execute_no_warning
        | apply preserves_bind; [|intro]
        | match goal with
          | |- preserves _ (if ?b then _ else _) => destruct b
          | |- preserves _ (match ?x with _ => _ end) => destruct x
          end ].

(** A body that makes one call and then only computes and logs: that call
    is all it adds to the calls, whatever the service answers. *)
Lemma one_call {B} (c : call) (k : value -> M B) (tr : list event) :
  (forall v, preserves calls (k v)) ->
  calls (snd (bind (execute remote c) k tr)) = (calls tr ++ [c])%list.
Proof.
  intros Hk. unfold bind, execute.
  destruct (remote (calls tr) c) as [v|e].
  - rewrite Hk, calls_app. cbn [calls]. reflexivity.
  - cbn [snd]. now rewrite calls_app.
Qed.

(** *** The read tools and the pass-through tools, whatever the service does *)

(** [get_presentation], [get_page] and [get_slide_content] make exactly one
    remote call, the read they are named after, and log no warning, whatever
    the service answers: none of them ever sends a [batchUpdate]. *)
Theorem read_tools_only_read
  (user_google_email presentation_id page_object_id : string)
  (tr : list event) :
  let presentation :=
    snd (get_presentation repr_str remote user_google_email presentation_id tr) in
  let page :=
    snd (get_page repr_str remote user_google_email presentation_id
           page_object_id tr) in
  let content :=
    snd (get_slide_content repr_str remote user_google_email presentation_id
           page_object_id tr) in
  calls presentation = (calls tr ++ [PresentationsGet presentation_id])%list /\
  calls page = (calls tr ++ [PagesGet presentation_id page_object_id])%list /\
  calls content = (calls tr ++ [PagesGet presentation_id page_object_id])%list /\
  warnings presentation = warnings tr /\
  warnings page = warnings tr /\
  warnings content = warnings tr.
Proof.
  cbv zeta. repeat split.
  - unfold get_presentation. rewrite bind_log, one_call.
    + rewrite calls_app. cbn [calls]. now rewrite app_nil_r.
    + intro v. repeat preserves_step.
  - unfold get_page. rewrite bind_log, one_call.
    + rewrite calls_app. cbn [calls]. now rewrite app_nil_r.
    + intro v. repeat preserves_step.
  - unfold get_slide_content. rewrite bind_log, one_call.
    + rewrite calls_app. cbn [calls]. now rewrite app_nil_r.
    + intro v. repeat preserves_step.
  - assert (H : preserves warnings
                  (get_presentation repr_str remote user_google_email
                     presentation_id))
      by (unfold get_presentation; repeat preserves_step).
    apply H.
  - assert (H : preserves warnings
                  (get_page repr_str remote user_google_email presentation_id
                     page_object_id))
      by (unfold get_page; repeat preserves_step).
    apply H.
  - assert (H : preserves warnings
                  (get_slide_content repr_str remote user_google_email
                     presentation_id page_object_id))
      by (unfold get_slide_content; repeat preserves_step).
    apply H.
Qed.

(** [batch_update_presentation] forwards its requests as they are, in one
    [batchUpdate], whatever the service answers; it sends the batch for the
    empty list too, where [update_slide_content] makes no call. *)
Theorem batch_update_forwards_requests
  (user_google_email presentation_id page_object_id : string)
  (requests : list dict) (tr : list event) :
  calls (snd (batch_update_presentation repr_str remote user_google_email
                presentation_id requests tr))
  = (calls tr
       ++ [BatchUpdate presentation_id (batch_body (map VDict requests))])%list /\
  calls (snd (batch_update_presentation repr_str remote user_google_email
                presentation_id [] tr))
  = (calls tr ++ [BatchUpdate presentation_id (batch_body [])])%list /\
  calls (snd (update_slide_content repr_str remote user_google_email
                presentation_id page_object_id [] tr))
  = calls tr.
Proof.
  assert (Hone : forall rs,
             calls (snd (batch_update_presentation repr_str remote
                           user_google_email presentation_id rs tr))
             = (calls tr
                  ++ [BatchUpdate presentation_id (batch_body (map VDict rs))])%list).
  { intros rs. unfold batch_update_presentation. rewrite bind_log, one_call.
    - rewrite calls_app. cbn [calls]. now rewrite app_nil_r.
    - intro v. repeat preserves_step. }
  split; [apply Hone|]. split; [apply (Hone [])|].
  destruct (update_slide_content_unknown_run user_google_email presentation_id
              page_object_id [] tr eq_refl) as (msg & ->).
  cbn [snd map]. rewrite calls_app. cbn [calls]. now rewrite app_nil_r.
Qed.

(** [update_slide_content] makes at most one remote call, the batch of the
    compiled requests, and makes it exactly when some spec has a known kind;
    it logs one warning per spec of unknown kind, in the order of the specs,
    before that call and whatever the service answers. *)
Theorem update_slide_content_effects
  (user_google_email presentation_id page_object_id : string)
  (updates : list dict) (tr : list event) :
  let run := update_slide_content repr_str remote user_google_email
               presentation_id page_object_id updates tr in
  calls (snd run)
  = (calls tr
       ++ if existsb known_type updates
          then [BatchUpdate presentation_id (batch_body (spec_compile updates))]
          else [])%list /\
  warnings (snd run)
  = (warnings tr
       ++ map (unknown_type_warning repr_str)
              (filter (fun upd => negb (known_type upd)) updates))%list.
Proof.
  cbv zeta.
  assert (Hw : forall tr0,
             warnings (tr0 ++ map (unknown_type_warning repr_str)
                                (filter (fun upd => negb (known_type upd)) updates))
             = (warnings tr0
                  ++ map (unknown_type_warning repr_str)
                         (filter (fun upd => negb (known_type upd)) updates))%list).
  { intros tr0. now rewrite warnings_app, warnings_unknown_type_warnings. }
  destruct (existsb known_type updates) eqn:Hk.
  - split; [now apply update_slide_content_one_batch|].
    unfold update_slide_content. rewrite bind_log.
    rewrite (bind_run _ _ _ _ _ (build_requests_run _ _)).
    rewrite (known_compile_not_nil _ Hk). cbn [negb].
    match goal with
    | |- warnings (snd (?m ?t)) = _ =>
        assert (H : preserves warnings m) by repeat preserves_step;
        rewrite H
    end.
    rewrite Hw, warnings_app. cbn [warnings filter is_warning].
    now rewrite app_nil_r.
  - assert (Hall : forallb (fun upd => negb (known_type upd)) updates = true).
    { apply forallb_forall. intros upd Hin.
      destruct (known_type upd) eqn:E; [|reflexivity].
      assert (existsb known_type updates = true)
        by (apply existsb_exists; now exists upd).
      congruence. }
    destruct (update_slide_content_unknown_run user_google_email presentation_id
                page_object_id updates tr Hall) as (msg & ->).
    cbn [snd]. rewrite (filter_all _ _ Hall).
    rewrite calls_app, warnings_app.
    cbn [calls warnings filter is_warning].
    fold (warnings (map (unknown_type_warning repr_str) updates)).
    rewrite calls_unknown_type_warnings, warnings_unknown_type_warnings.
    now rewrite !app_nil_r.
Qed.

(** [copy_slide] never logs a warning, whatever it is given and whatever the
    service answers. *)
Theorem copy_slide_never_warns
  (user_google_email presentation_id source_page_object_id : string)
  (updates : option (list dict)) (tr : list event) :
  warnings (snd (copy_slide repr_str remote user_google_email presentation_id
                   source_page_object_id updates tr))
  = warnings tr.
Proof.
  assert (H : preserves warnings
                (copy_slide repr_str remote user_google_email presentation_id
                   source_page_object_id updates))
    by (unfold copy_slide; repeat preserves_step).
  apply H.
Qed.

(** *** Numbered loops *)

Lemma str_app_assoc (s1 s2 s3 : string) : (s1 ++ s2) ++ s3 = s1 ++ s2 ++ s3.
Proof. induction s1 as [|c s1 IH]; simpl; now rewrite ?IH. Qed.

Lemma nth_error_enumerate_from {A} (l : list A) :
  forall (start i : nat) (x : A),
    nth_error l i = Some x ->
    nth_error (enumerate_from start l) i = Some (start + i, x).
Proof.
  unfold enumerate_from.
  induction l as [|y l IH]; intros start [|i] x H; simpl in *;
    try discriminate.
  - injection H as ->. now rewrite Nat.add_0_r.
  - rewrite (IH (S start) i x H). do 2 f_equal. lia.
Qed.

Lemma length_enumerate_from {A} (start : nat) (l : list A) :
  List.length (enumerate_from start l) = List.length l.
Proof.
  unfold enumerate_from. rewrite length_combine, length_seq. lia.
Qed.

Lemma Forall2_nth_some {A B} (R : A -> B -> Prop) (l1 : list A) (l2 : list B) :
  Forall2 R l1 l2 ->
  forall (i : nat) (a : A),
    nth_error l1 i = Some a -> exists b, nth_error l2 i = Some b /\ R a b.
Proof.
  induction 1 as [|a0 b0 l1 l2 HR _ IH]; intros [|i] a Hi; simpl in *;
    try discriminate.
  - injection Hi as ->. now exists b0.
  - now apply IH.
Qed.

Lemma Forall_enumerate_from {A} (P : A -> Prop) (start : nat) (l : list A) :
  Forall P l -> Forall (fun p => P (snd p)) (enumerate_from start l).
Proof.
  intros H. apply Forall_forall. intros [i x] Hin.
  apply in_combine_r in Hin. simpl.
  rewrite Forall_forall in H. now apply H.
Qed.

(** *** [get_presentation] *)

Lemma py_len_has_len (v : value) :
  has_len v = true -> py_len v = Ok (len_or_zero v).
Proof. unfold len_or_zero. now destruct v. Qed.

Lemma slide_line_entry (i : nat) (slide : value) :
  slide_entry slide = true ->
  slide_line repr_str i slide
  = Ok ("  Slide " ++ str_of_nat i ++ ": ID "
          ++ py_str repr_str (object_id_or_unknown slide) ++ ", "
          ++ str_of_nat (element_count slide) ++ " element(s)").
Proof.
  intros H. apply dict_with_inv in H as (d & -> & Hd).
  unfold slide_line. rewrite !py_get_dict. cbn [res_bind].
  assert (Hlen : has_len (dict_get d "pageElements" (VList [])) = true).
  { unfold optional in Hd. unfold dict_get.
    now destruct (dict_lookup "pageElements" d). }
  now rewrite (py_len_has_len _ Hlen).
Qed.

Lemma slides_breakdown_lines (slides : list value) :
  forallb slide_entry slides = true ->
  exists slides_info,
    slides_breakdown repr_str slides = Ok slides_info /\
    Forall2 (fun i_slide line =>
               slide_line repr_str (fst i_slide) (snd i_slide) = Ok line)
            (enumerate_from 1 slides) slides_info.
Proof.
  intros H. unfold slides_breakdown.
  destruct (for_each_collect
              (fun i_slide : nat * value =>
                 slide_line repr_str (fst i_slide) (snd i_slide))
              (enumerate_from 1 slides)) with (acc := @nil string)
    as (lines & Hrun & Hall).
  { apply Forall_forall. intros [i slide] Hin. cbn [fst snd].
    apply in_combine_r in Hin. rewrite forallb_forall in H.
    rewrite (slide_line_entry i slide (H slide Hin)). now eexists. }
  now exists lines.
Qed.

(** The breakdown of [get_presentation] has one line per slide, in the
    order of the slides; the line of the slide at position [i] carries the
    number [i + 1], the slide's object id (or [Unknown]) and the number of
    its page elements (0 when it has none). *)
Theorem slides_breakdown_numbered (slides : list value) :
  forallb slide_entry slides = true ->
  exists slides_info,
    slides_breakdown repr_str slides = Ok slides_info /\
    List.length slides_info = List.length slides /\
    forall (i : nat) (slide : value),
      nth_error slides i = Some slide ->
      nth_error slides_info i
      = Some ("  Slide " ++ str_of_nat (i + 1) ++ ": ID "
              ++ py_str repr_str (object_id_or_unknown slide) ++ ", "
              ++ str_of_nat (element_count slide) ++ " element(s)").
Proof.
  intros H. destruct (slides_breakdown_lines slides H) as (lines & Hrun & Hall).
  exists lines. split; [exact Hrun|]. split.
  - rewrite <- (Forall2_length Hall). apply length_enumerate_from.
  - intros i slide Hi.
    pose proof (nth_error_enumerate_from slides 1 i slide Hi) as Hp.
    destruct (Forall2_nth_some _ _ _ Hall i _ Hp) as (line & Hline & Hok).
    cbn [fst snd] in Hok.
    rewrite slide_line_entry in Hok.
    + rewrite Hline. replace (i + 1) with (1 + i) by lia. congruence.
    + rewrite forallb_forall in H. apply H. eapply nth_error_In; eauto.
Qed.

Lemma page_size_field_entry (page_size : value) (side field : string)
  (default : value) :
  page_size_entry page_size = true ->
  side = "width" \/ side = "height" ->
  page_size_field page_size side field default
  = Ok (size_field page_size side field default).
Proof.
  intros H Hside. apply dict_with_inv in H as (d & -> & Hd).
  apply andb_true_iff in Hd as [Hw Hh].
  unfold page_size_field, size_field. rewrite py_get_dict. cbn [res_bind].
  assert (Hdim : is_dict (dict_get d side (VDict [])) = true).
  { unfold optional in Hw, Hh. unfold dict_get.
    destruct Hside as [-> | ->].
    - now destruct (dict_lookup "width" d).
    - now destruct (dict_lookup "height" d). }
  destruct (dict_get d side (VDict [])); try discriminate.
  now rewrite py_get_dict.
Qed.

(** When the service answers with a presentation, [get_presentation] returns
    its details: the total is the number of slides, which is also the number
    of breakdown lines; a missing title reads [Untitled]; a missing page
    size or dimension reads [Unknown] with an empty unit; a presentation
    without slides reads [No slides found]. *)
Theorem get_presentation_message
  (user_google_email presentation_id : string) (tr : list event)
  (result : dict) (slides : list value) :
  remote (calls tr) (PresentationsGet presentation_id) = Ok (VDict result) ->
  dict_get result "slides" (VList []) = VList slides ->
  forallb slide_entry slides = true ->
  page_size_entry (dict_get result "pageSize" (VDict [])) = true ->
  exists slides_info,
    slides_breakdown repr_str slides = Ok slides_info /\
    List.length slides_info = List.length slides /\
    fst (get_presentation repr_str remote user_google_email presentation_id tr)
    = Ok (let page_size := dict_get result "pageSize" (VDict []) in
          "Presentation Details for " ++ user_google_email ++ ":" ++ nl
          ++ "- Title: "
          ++ py_str repr_str (dict_get result "title" (VStr "Untitled")) ++ nl
          ++ "- Presentation ID: " ++ presentation_id ++ nl
          ++ "- URL: https://docs.google.com/presentation/d/"
          ++ presentation_id ++ "/edit" ++ nl
          ++ "- Total Slides: " ++ str_of_nat (List.length slides) ++ nl
          ++ "- Page Size: "
          ++ py_str repr_str
               (size_field page_size "width" "magnitude" (VStr "Unknown"))
          ++ " x "
          ++ py_str repr_str
               (size_field page_size "height" "magnitude" (VStr "Unknown"))
          ++ " "
          ++ py_str repr_str (size_field page_size "width" "unit" (VStr ""))
          ++ nl ++ nl
          ++ "Slides Breakdown:" ++ nl
          ++ match slides with
             | [] => "  No slides found"
             | _ => String.concat nl slides_info
             end).
Proof.
  intros Hget Hslides Hentries Hsize.
  destruct (slides_breakdown_lines slides Hentries) as (lines & Hrun & Hall).
  assert (Hlen : List.length lines = List.length slides).
  { rewrite <- (Forall2_length Hall). apply length_enumerate_from. }
  exists lines. split; [exact Hrun|]. split; [exact Hlen|].
  unfold get_presentation. rewrite bind_log.
  rewrite bind_execute with (v := VDict result).
  2:{ rewrite calls_app. cbn [calls]. now rewrite app_nil_r. }
  rewrite (bind_lift _ _ _ _ (py_get_dict _ _ _)).
  rewrite (bind_lift _ _ _ _ (py_get_dict _ _ _)), Hslides.
  rewrite (bind_lift _ _ _ _ (py_get_dict _ _ _)).
  rewrite bind_lift with (a := slides) by reflexivity.
  rewrite (bind_lift _ _ _ _ Hrun).
  rewrite bind_lift with (a := List.length slides) by reflexivity.
  rewrite (bind_lift _ _ _ _
             (page_size_field_entry _ "width" "magnitude" _ Hsize (or_introl eq_refl))).
  rewrite (bind_lift _ _ _ _
             (page_size_field_entry _ "height" "magnitude" _ Hsize (or_intror eq_refl))).
  rewrite (bind_lift _ _ _ _
             (page_size_field_entry _ "width" "unit" _ Hsize (or_introl eq_refl))).
  rewrite bind_log. unfold ret. cbn [fst]. cbv zeta.
  destruct slides, lines; try discriminate; reflexivity.
Qed.

(** *** [batch_update_presentation] *)

Lemma reply_step_entry (confirmation_message : string) (i_reply : nat * value) :
  reply_entry (snd i_reply) = true ->
  reply_step repr_str confirmation_message i_reply
  = Ok (confirmation_message ++ reply_line repr_str i_reply).
Proof.
  destruct i_reply as [i reply]. cbn [snd]. intros H.
  apply dict_with_inv in H as (d & -> & Hd).
  apply andb_true_iff in Hd as [Hslide Hshape].
  unfold optional in Hslide, Hshape.
  unfold reply_step, reply_line, reply_text. cbn [fst snd].
  destruct (dict_lookup "createSlide" d) as [created|] eqn:Es.
  { rewrite (py_in_some _ _ _ Es), (py_getitem_some _ _ _ Es). cbn [res_bind].
    destruct created; try discriminate.
    rewrite py_get_dict. cbn [res_bind object_id_or_unknown].
    reflexivity. }
  rewrite (py_in_none _ _ Es). cbn [res_bind].
  destruct (dict_lookup "createShape" d) as [created|] eqn:Eh.
  { rewrite (py_in_some _ _ _ Eh), (py_getitem_some _ _ _ Eh). cbn [res_bind].
    destruct created; try discriminate.
    rewrite py_get_dict. cbn [res_bind object_id_or_unknown].
    reflexivity. }
  rewrite (py_in_none _ _ Eh). cbn [res_bind].
  reflexivity.
Qed.

Lemma reply_loop (replies : list (nat * value)) :
  Forall (fun i_reply => reply_entry (snd i_reply) = true) replies ->
  forall confirmation_message : string,
    for_each (reply_step repr_str) replies confirmation_message
    = Ok (confirmation_message ++ join_all (map (reply_line repr_str) replies)).
Proof.
  induction 1 as [|i_reply replies Hentry _ IH]; intros msg.
  - simpl. f_equal. induction msg as [|c msg IHm]; simpl; now rewrite <- ?IHm.
  - cbn [for_each]. rewrite (reply_step_entry _ _ Hentry). cbn [res_bind].
    rewrite IH. cbn [map join_all fold_right]. now rewrite str_app_assoc.
Qed.

(** When the service answers a batch with a list of replies,
    [batch_update_presentation] reports the number of requests and of
    replies and, unless there is no reply, one result line per reply,
    numbered from 1 in the order of the replies: a created slide with its
    id, else a created shape with its id, else a completed operation. *)
Theorem batch_update_reports_replies
  (user_google_email presentation_id : string) (requests : list dict)
  (tr : list event) (result : dict) (replies : list value) :
  remote (calls tr)
         (BatchUpdate presentation_id (batch_body (map VDict requests)))
  = Ok (VDict result) ->
  dict_get result "replies" (VList []) = VList replies ->
  forallb reply_entry replies = true ->
  fst (batch_update_presentation repr_str remote user_google_email
         presentation_id requests tr)
  = Ok ("Batch Update Completed for " ++ user_google_email ++ ":" ++ nl
        ++ "- Presentation ID: " ++ presentation_id ++ nl
        ++ "- URL: https://docs.google.com/presentation/d/"
        ++ presentation_id ++ "/edit" ++ nl
        ++ "- Requests Applied: " ++ str_of_nat (List.length requests) ++ nl
        ++ "- Replies Received: " ++ str_of_nat (List.length replies)
        ++ match replies with
           | [] => ""
           | _ => nl ++ nl ++ "Update Results:"
                     ++ join_all (map (reply_line repr_str)
                                      (enumerate_from 1 replies))
           end).
Proof.
  intros Hremote Hreplies Hentries.
  unfold batch_update_presentation. rewrite bind_log.
  rewrite bind_execute with (v := VDict result).
  2:{ rewrite calls_app. cbn [calls]. now rewrite app_nil_r. }
  rewrite (bind_lift _ _ _ _ (py_get_dict _ _ _)), Hreplies.
  rewrite bind_lift with (a := List.length replies) by reflexivity.
  destruct replies as [|reply replies].
  - cbn [truthy]. unfold bind at 1, ret at 1. rewrite bind_log. unfold ret.
    cbn [fst]. reflexivity.
  - cbn [truthy]. unfold bind, lift, log, ret. cbn [py_iter].
    rewrite reply_loop.
    + cbn [fst]. f_equal. rewrite !str_app_assoc. reflexivity.
    + apply Forall_enumerate_from with (P := fun r => reply_entry r = true).
      apply Forall_forall. intros r Hin.
      rewrite forallb_forall in Hentries. now apply Hentries.
Qed.

(** *** The messages of [get_page] and [get_slide_content] *)

Lemma get_page_line_entry (element : value) :
  page_entry element = true ->
  exists line, get_page_line repr_str element = Ok line.
Proof.
  intros H. apply dict_with_inv in H as (d & -> & Hd).
  apply andb_true_iff in Hd as [Hd Hline].
  apply andb_true_iff in Hd as [Hshape Htable].
  unfold optional in *.
  unfold get_page_line. rewrite py_get_dict. cbn [res_bind].
  destruct (dict_lookup "shape" d) as [shape|] eqn:Es.
  { rewrite (py_in_some _ _ _ Es), (py_getitem_some _ _ _ Es). cbn [res_bind].
    destruct shape; try discriminate. rewrite py_get_dict. now eexists. }
  rewrite (py_in_none _ _ Es). cbn [res_bind].
  destruct (dict_lookup "table" d) as [table|] eqn:Et.
  { rewrite (py_in_some _ _ _ Et), (py_getitem_some _ _ _ Et). cbn [res_bind].
    destruct table; try discriminate. rewrite !py_get_dict. now eexists. }
  rewrite (py_in_none _ _ Et). cbn [res_bind].
  destruct (dict_lookup "line" d) as [line|] eqn:El.
  { rewrite (py_in_some _ _ _ El), (py_getitem_some _ _ _ El). cbn [res_bind].
    destruct line; try discriminate. rewrite py_get_dict. now eexists. }
  rewrite (py_in_none _ _ El). cbn [res_bind]. now eexists.
Qed.

(** When the service answers with a page whose elements are dicts with dict
    payloads, [get_page] returns its details: one line per element, in the
    order of the elements, under a total that is the number of elements; a
    missing page type reads [Unknown] and a page without elements reads
    [No elements found]. *)
Theorem get_page_message
  (user_google_email presentation_id page_object_id : string)
  (tr : list event) (result : dict) (page_elements : list value) :
  remote (calls tr) (PagesGet presentation_id page_object_id)
  = Ok (VDict result) ->
  dict_get result "pageElements" (VList []) = VList page_elements ->
  forallb page_entry page_elements = true ->
  exists elements_info,
    Forall2 (fun element line => get_page_line repr_str element = Ok line)
            page_elements elements_info /\
    fst (get_page repr_str remote user_google_email presentation_id
           page_object_id tr)
    = Ok ("Page Details for " ++ user_google_email ++ ":" ++ nl
          ++ "- Presentation ID: " ++ presentation_id ++ nl
          ++ "- Page ID: " ++ page_object_id ++ nl
          ++ "- Page Type: "
          ++ py_str repr_str (dict_get result "pageType" (VStr "Unknown")) ++ nl
          ++ "- Total Elements: " ++ str_of_nat (List.length page_elements)
          ++ nl ++ nl
          ++ "Page Elements:" ++ nl
          ++ match page_elements with
             | [] => "  No elements found"
             | _ => String.concat nl elements_info
             end).
Proof.
  intros Hget Hpage Hall.
  destruct (for_each_collect (get_page_line repr_str) page_elements)
    with (acc := @nil string) as (lines & Hrun & Hlines).
  { apply Forall_forall. intros e Hin. apply get_page_line_entry.
    rewrite forallb_forall in Hall. now apply Hall. }
  exists lines. split; [exact Hlines|].
  unfold get_page. rewrite bind_log.
  rewrite bind_execute with (v := VDict result).
  2:{ rewrite calls_app. cbn [calls]. now rewrite app_nil_r. }
  rewrite (bind_lift _ _ _ _ (py_get_dict _ _ _)).
  rewrite (bind_lift _ _ _ _ (py_get_dict _ _ _)), Hpage.
  rewrite bind_lift with (a := page_elements) by reflexivity.
  rewrite bind_lift with (a := lines) by exact Hrun.
  rewrite bind_lift with (a := List.length page_elements) by reflexivity.
  rewrite bind_log. unfold ret. cbn [fst].
  pose proof (Forall2_length Hlines) as Hlen.
  destruct page_elements, lines; try discriminate; reflexivity.
Qed.

(** When the service answers with a page of page elements,
    [get_slide_content] returns its summary: one block per element, in the
    order of the elements, under a total that is the number of elements; a
    page without elements reads [No content found on this slide.]. *)
Theorem get_slide_content_message
  (user_google_email presentation_id page_object_id : string)
  (tr : list event) (result : dict) (page_elements : list value) :
  remote (calls tr) (PagesGet presentation_id page_object_id)
  = Ok (VDict result) ->
  dict_get result "pageElements" (VList []) = VList page_elements ->
  forallb page_element page_elements = true ->
  exists content_blocks,
    Forall2 (fun element block => content_block repr_str element = Ok block)
            page_elements content_blocks /\
    fst (get_slide_content repr_str remote user_google_email presentation_id
           page_object_id tr)
    = Ok ("Slide Content Details for " ++ user_google_email ++ ":" ++ nl
          ++ "- Presentation ID: " ++ presentation_id ++ nl
          ++ "- Page ID: " ++ page_object_id ++ nl
          ++ "- Total Elements: " ++ str_of_nat (List.length page_elements)
          ++ nl ++ nl
          ++ "Content Summary:" ++ nl
          ++ match page_elements with
             | [] => "  No content found on this slide."
             | _ => String.concat nl content_blocks
             end ++ nl).
Proof.
  intros Hget Hpage Hall.
  destruct (extract_blocks page_elements Hall) as (blocks & Hrun & Hblocks).
  exists blocks. split; [exact Hblocks|].
  unfold get_slide_content. rewrite bind_log.
  rewrite bind_execute with (v := VDict result).
  2:{ rewrite calls_app. cbn [calls]. now rewrite app_nil_r. }
  rewrite (bind_lift _ _ _ _ (py_get_dict _ _ _)), Hpage.
  rewrite bind_lift with (a := page_elements) by reflexivity.
  rewrite (bind_lift _ _ _ _ Hrun).
  rewrite bind_lift with (a := List.length page_elements) by reflexivity.
  rewrite bind_log. unfold ret. cbn [fst].
  pose proof (Forall2_length Hblocks) as Hlen.
  destruct page_elements, blocks; try discriminate; reflexivity.
Qed.

(** *** [create_slide] *)

(** [create_slide] sends one batch with a single [createSlide] request that
    carries exactly the options it was given: an insertion index when one is
    given (0 included), a layout reference when a layout id is given; it makes
    no other call, whatever the service answers. *)
Theorem create_slide_sends_options
  (user_google_email presentation_id : string)
  (insertion_index : option Z) (layout_id : option string)
  (tr : list event) :
  exists fields : dict,
    calls (snd (create_slide repr_str remote user_google_email presentation_id
                  insertion_index layout_id tr))
    = (calls tr
         ++ [BatchUpdate presentation_id
               (batch_body [VDict [("createSlide", VDict fields)]])])%list /\
    dict_lookup "insertionIndex" fields = option_map VInt insertion_index /\
    dict_lookup "slideLayoutReference" fields
    = option_map (fun l => VDict [("layoutId", VStr l)]) layout_id /\
    List.length fields
    = match insertion_index with Some _ => 1 | None => 0 end
      + match layout_id with Some _ => 1 | None => 0 end.
Proof.
  assert (Hcalls :
            calls (snd (create_slide repr_str remote user_google_email
                          presentation_id insertion_index layout_id tr))
            = (calls tr
                 ++ [BatchUpdate presentation_id
                       (batch_body [create_slide_request insertion_index
                                      layout_id])])%list).
  { unfold create_slide. rewrite bind_log, one_call.
    - rewrite calls_app. cbn [calls]. now rewrite app_nil_r.
    - intro v. repeat preserves_step. }
  rewrite Hcalls.
  destruct insertion_index as [i|], layout_id as [l|];
    eexists; (split; [reflexivity|]); repeat split.
Qed.

(** When the batch of [create_slide] comes back, the tool reports the new
    slide when the first reply carries its object id and the failure message
    when it does not; the report shows the insertion index that was given (0
    as 0) or [end], and the layout id or [default] (also for the empty
    string). *)
Theorem create_slide_outcome
  (user_google_email presentation_id : string)
  (insertion_index : option Z) (layout_id : option string)
  (tr : list event) (result new_slide_id : value) :
  remote (calls tr)
         (BatchUpdate presentation_id
            (batch_body [create_slide_request insertion_index layout_id]))
  = Ok result ->
  created_slide_id_of result = Ok new_slide_id ->
  fst (create_slide repr_str remote user_google_email presentation_id
         insertion_index layout_id tr)
  = Ok (if truthy new_slide_id then
          "Slide Created Successfully for " ++ user_google_email ++ ":" ++ nl
          ++ "- Presentation ID: " ++ presentation_id ++ nl
          ++ "- New Slide ID: " ++ py_str repr_str new_slide_id ++ nl
          ++ "- Insertion Index: "
          ++ match insertion_index with
             | Some i => str_of_Z i
             | None => "end"
             end ++ nl
          ++ "- Layout ID: "
          ++ match layout_id with
             | Some (String c l) => String c l
             | _ => "default"
             end ++ nl
          ++ "- URL: https://docs.google.com/presentation/d/"
          ++ presentation_id ++ "/edit#slide=id."
          ++ py_str repr_str new_slide_id ++ nl
        else "Failed to create a new slide.").
Proof.
  intros Hremote Hid. unfold create_slide. rewrite bind_log.
  rewrite bind_execute with (v := result).
  2:{ rewrite calls_app. cbn [calls]. now rewrite app_nil_r. }
  rewrite (bind_lift _ _ _ _ Hid).
  destruct (truthy new_slide_id); cbn [negb]; [|reflexivity].
  rewrite bind_log. unfold ret. cbn [fst].
  destruct layout_id as [[|c l]|]; reflexivity.
Qed.

(** The default [[{}]] of [replies] only covers a missing key: when the
    service answers the batch of [create_slide] with an empty list of
    replies, indexing it raises [IndexError] and no message is returned. *)
Theorem create_slide_empty_replies
  (user_google_email presentation_id : string)
  (insertion_index : option Z) (layout_id : option string)
  (tr : list event) (result : dict) :
  remote (calls tr)
         (BatchUpdate presentation_id
            (batch_body [create_slide_request insertion_index layout_id]))
  = Ok (VDict result) ->
  dict_lookup "replies" result = Some (VList []) ->
  fst (create_slide repr_str remote user_google_email presentation_id
         insertion_index layout_id tr)
  = Raise IndexError.
Proof.
  intros Hremote Hreplies. unfold create_slide. rewrite bind_log.
  rewrite bind_execute with (v := VDict result).
  2:{ rewrite calls_app. cbn [calls]. now rewrite app_nil_r. }
  unfold bind, lift, created_slide_id_of, py_get. now rewrite Hreplies.
Qed.

(** *** More of [copy_slide] *)

Lemma bind_execute_raise {B} (c : call) (k : value -> M B) (tr : list event)
  (e : pyerr) :
  remote (calls tr) c = Raise e ->
  bind (execute remote c) k tr = (Raise e, (tr ++ [Called c])%list).
Proof. unfold bind, execute. now intros ->. Qed.

(** The same for [copy_slide]: when the duplication batch comes back with an
    empty list of replies, the tool raises [IndexError] after the
    duplication was requested, and returns no message. *)
Theorem copy_slide_empty_replies
  (user_google_email presentation_id source_page_object_id : string)
  (updates : option (list dict)) (tr : list event)
  (presentation : value) (insertion_index : nat) (batch_result : dict) :
  remote (calls tr) (PresentationsGet presentation_id) = Ok presentation ->
  locate_source presentation source_page_object_id = Ok (Some insertion_index) ->
  remote (calls tr ++ [PresentationsGet presentation_id])%list
         (BatchUpdate presentation_id
            (batch_body [duplicate_request source_page_object_id insertion_index]))
  = Ok (VDict batch_result) ->
  dict_lookup "replies" batch_result = Some (VList []) ->
  let run := copy_slide repr_str remote user_google_email presentation_id
               source_page_object_id updates tr in
  fst run = Raise IndexError /\
  calls (snd run)
  = (calls tr
       ++ [PresentationsGet presentation_id;
           BatchUpdate presentation_id
             (batch_body [duplicate_request source_page_object_id
                            insertion_index])])%list.
Proof.
  intros Hget Hloc Hbatch Hreplies run. subst run. unfold copy_slide.
  rewrite bind_log.
  rewrite bind_execute with (v := presentation).
  2:{ rewrite calls_app. cbn [calls]. now rewrite app_nil_r. }
  rewrite (bind_lift _ _ _ _ Hloc).
  rewrite bind_execute with (v := VDict batch_result).
  2:{ rewrite !calls_app. cbn [calls]. now rewrite app_nil_r. }
  unfold bind, lift, new_slide_id_of, py_get. rewrite Hreplies.
  cbn [res_bind py_first fst snd]. split; [reflexivity|].
  rewrite !calls_app. cbn [calls]. now rewrite app_nil_r, <- app_assoc.
Qed.

Lemma find_insertion_index_sound (source : string) (slides : list value) :
  forall (n k : nat),
    find_insertion_index source (combine (seq n (List.length slides)) slides)
    = Ok (Some k) ->
    exists before slide after,
      slides = (before ++ slide :: after)%list /\
      k = n + List.length before + 1 /\
      has_object_id source slide = true /\
      existsb (has_object_id source) before = false.
Proof.
  induction slides as [|s slides IH]; intros n k H; [discriminate|].
  cbn [List.length seq combine find_insertion_index] in H.
  destruct s; try discriminate.
  rewrite py_get_dict in H. cbn [res_bind] in H.
  destruct (py_eq_str (dict_get d "objectId" VNone) source) eqn:E.
  - injection H as <-. exists [], (VDict d), slides.
    cbn [app List.length has_object_id existsb]. repeat split; [lia|exact E].
  - destruct (IH (S n) k H) as (before & slide & after & -> & -> & Hs & Hb).
    exists (VDict d :: before), slide, after.
    cbn [app List.length existsb has_object_id]. rewrite E, Hb.
    repeat split; [lia|exact Hs].
Qed.

(** Whenever the search of [copy_slide] finds an insertion index, it points
    right after the first slide that has the source id: the index is at
    least 1 and at most the number of slides. *)
Theorem locate_source_sound (presentation : value)
  (source_page_object_id : string) (slides : list value)
  (insertion_index : nat) :
  py_get presentation "slides" (VList []) = Ok (VList slides) ->
  locate_source presentation source_page_object_id = Ok (Some insertion_index) ->
  1 <= insertion_index <= List.length slides /\
  exists before slide after,
    slides = (before ++ slide :: after)%list /\
    insertion_index = List.length before + 1 /\
    has_object_id source_page_object_id slide = true /\
    existsb (has_object_id source_page_object_id) before = false.
Proof.
  intros Hslides Hloc. unfold locate_source in Hloc. rewrite Hslides in Hloc.
  cbn [res_bind py_iter] in Hloc. unfold enumerate in Hloc.
  destruct (find_insertion_index_sound _ _ _ _ Hloc)
    as (before & slide & after & -> & -> & Hs & Hb).
  split.
  - rewrite length_app. cbn [List.length]. lia.
  - now exists before, slide, after.
Qed.

(** The two copies of the update compiler agree: for every list of specs the
    loop of [copy_slide] builds exactly the requests the loop of
    [update_slide_content] builds, in the same order. *)
Theorem update_compilers_agree (updates : list dict) (tr : list event) :
  fst (build_requests repr_str updates tr) = Ok (build_update_requests updates).
Proof.
  unfold build_requests, build_update_requests.
  generalize (@nil value) as requests. revert tr.
  induction updates as [|upd updates IH]; intros tr requests; [reflexivity|].
  cbn [for_eachM fold_left]. unfold bind at 1.
  assert (Hstep : exists tr',
             build_requests_step repr_str requests upd tr
             = (Ok (build_update_requests_step requests upd), tr')).
  { unfold build_requests_step, build_update_requests_step.
    destruct (py_eq_str (dict_get upd "update_type" VNone) "shape_text");
      [now eexists|].
    destruct (py_eq_str (dict_get upd "update_type" VNone) "table_cell");
      [now eexists|].
    destruct (py_eq_str (dict_get upd "update_type" VNone) "image_description");
      now eexists. }
  destruct Hstep as (tr' & ->). apply IH.
Qed.

(** When the duplication succeeds and some spec has a known kind,
    [copy_slide] sends the compiled updates as a second batch, with the
    element ids the caller gave; when that batch comes back it reports the
    copy with the number of requests sent (two per text update, one per
    description) and of replies received. *)
Theorem copy_slide_applies_updates
  (user_google_email presentation_id source_page_object_id : string)
  (updates : list dict) (tr : list event)
  (presentation : value) (insertion_index : nat)
  (batch_result new_slide_id update_result replies : value) (n : nat) :
  existsb known_type updates = true ->
  remote (calls tr) (PresentationsGet presentation_id) = Ok presentation ->
  locate_source presentation source_page_object_id = Ok (Some insertion_index) ->
  remote (calls tr ++ [PresentationsGet presentation_id])%list
         (BatchUpdate presentation_id
            (batch_body [duplicate_request source_page_object_id insertion_index]))
  = Ok batch_result ->
  new_slide_id_of batch_result = Ok new_slide_id ->
  truthy new_slide_id = true ->
  remote (calls tr
            ++ [PresentationsGet presentation_id;
                BatchUpdate presentation_id
                  (batch_body [duplicate_request source_page_object_id
                                 insertion_index])])%list
         (BatchUpdate presentation_id (batch_body (spec_compile updates)))
  = Ok update_result ->
  py_get update_result "replies" (VList []) = Ok replies ->
  py_len replies = Ok n ->
  let run := copy_slide repr_str remote user_google_email presentation_id
               source_page_object_id (Some updates) tr in
  fst run
  = Ok ("Slide Copied Successfully for " ++ user_google_email ++ ":" ++ nl
        ++ "- Presentation ID: " ++ presentation_id ++ nl
        ++ "- Source Page ID: " ++ source_page_object_id ++ nl
        ++ "- New Slide ID: " ++ py_str repr_str new_slide_id ++ nl
        ++ "- Insertion Index: " ++ str_of_nat insertion_index ++ nl
        ++ (nl ++ "- Updates Applied: "
               ++ str_of_nat (promised_length updates)
               ++ " request(s) sent, " ++ str_of_nat n
               ++ " replies received.") ++ nl
        ++ "- URL: https://docs.google.com/presentation/d/" ++ presentation_id
        ++ "/edit#slide=id." ++ py_str repr_str new_slide_id ++ nl) /\
  calls (snd run)
  = (calls tr
       ++ [PresentationsGet presentation_id;
           BatchUpdate presentation_id
             (batch_body [duplicate_request source_page_object_id
                            insertion_index]);
           BatchUpdate presentation_id (batch_body (spec_compile updates))])%list.
Proof.
  intros Hknown Hget Hloc Hbatch Hid Htruthy Hupdate Hreplies Hlen run.
  subst run. split.
  all: unfold copy_slide; rewrite bind_log.
  all: rewrite bind_execute with (v := presentation);
    [|rewrite calls_app; cbn [calls]; now rewrite app_nil_r].
  all: rewrite (bind_lift _ _ _ _ Hloc).
  all: rewrite bind_execute with (v := batch_result);
    [|rewrite !calls_app; cbn [calls]; now rewrite app_nil_r].
  all: rewrite (bind_lift _ _ _ _ Hid), Htruthy; cbn [negb given_updates].
  all: destruct updates as [|upd updates]; [discriminate|].
  all: rewrite build_update_requests_spec, (known_compile_not_nil _ Hknown).
  all: unfold bind at 1.
  all: rewrite bind_execute with (v := update_result);
    [|rewrite !calls_app; cbn [calls]; rewrite app_nil_r, <- app_assoc;
      exact Hupdate].
  all: rewrite (bind_lift _ _ _ _ Hreplies), (bind_lift _ _ _ _ Hlen).
  all: unfold ret at 1; rewrite bind_log; unfold ret; cbn [fst snd].
  - now rewrite spec_compile_length.
  - rewrite !calls_app. cbn [calls]. now rewrite app_nil_r, <- !app_assoc.
Qed.

(** When the second batch of [copy_slide] fails, the error goes to the
    caller and no message is returned, although the duplication and the
    update batch were both requested: nothing is rolled back. *)
Theorem copy_slide_update_failure
  (user_google_email presentation_id source_page_object_id : string)
  (updates : list dict) (tr : list event)
  (presentation : value) (insertion_index : nat)
  (batch_result new_slide_id : value) (e : pyerr) :
  existsb known_type updates = true ->
  remote (calls tr) (PresentationsGet presentation_id) = Ok presentation ->
  locate_source presentation source_page_object_id = Ok (Some insertion_index) ->
  remote (calls tr ++ [PresentationsGet presentation_id])%list
         (BatchUpdate presentation_id
            (batch_body [duplicate_request source_page_object_id insertion_index]))
  = Ok batch_result ->
  new_slide_id_of batch_result = Ok new_slide_id ->
  truthy new_slide_id = true ->
  remote (calls tr
            ++ [PresentationsGet presentation_id;
                BatchUpdate presentation_id
                  (batch_body [duplicate_request source_page_object_id
                                 insertion_index])])%list
         (BatchUpdate presentation_id (batch_body (spec_compile updates)))
  = Raise e ->
  let run := copy_slide repr_str remote user_google_email presentation_id
               source_page_object_id (Some updates) tr in
  fst run = Raise e /\
  calls (snd run)
  = (calls tr
       ++ [PresentationsGet presentation_id;
           BatchUpdate presentation_id
             (batch_body [duplicate_request source_page_object_id
                            insertion_index]);
           BatchUpdate presentation_id (batch_body (spec_compile updates))])%list.
Proof.
  intros Hknown Hget Hloc Hbatch Hid Htruthy Hupdate run.
  subst run. split.
  all: unfold copy_slide; rewrite bind_log.
  all: rewrite bind_execute with (v := presentation);
    [|rewrite calls_app; cbn [calls]; now rewrite app_nil_r].
  all: rewrite (bind_lift _ _ _ _ Hloc).
  all: rewrite bind_execute with (v := batch_result);
    [|rewrite !calls_app; cbn [calls]; now rewrite app_nil_r].
  all: rewrite (bind_lift _ _ _ _ Hid), Htruthy; cbn [negb given_updates].
  all: destruct updates as [|upd updates]; [discriminate|].
  all: rewrite build_update_requests_spec, (known_compile_not_nil _ Hknown).
  all: unfold bind at 1.
  all: rewrite bind_execute_raise with (e := e);
    [|rewrite !calls_app; cbn [calls]; rewrite app_nil_r, <- app_assoc;
      exact Hupdate].
  all: cbn [fst snd].
  - reflexivity.
  - rewrite !calls_app. cbn [calls]. now rewrite app_nil_r, <- !app_assoc.
Qed.

(** *** Tables and labels in [get_slide_content] *)

Lemma lstrip_no_leading_space (s : string) : starts_with_space (lstrip s) = false.
Proof.
  induction s as [|c s IH]; [reflexivity|].
  simpl. destruct (is_space c) eqn:E; [exact IH|]. simpl. exact E.
Qed.

Lemma rstrip_keeps_start (s : string) :
  starts_with_space s = false -> starts_with_space (rstrip s) = false.
Proof.
  destruct s as [|c s]; [reflexivity|].
  cbn [starts_with_space rstrip]. intros Hc.
  destruct (rstrip s); [rewrite Hc|]; simpl; exact Hc.
Qed.

Lemma rstrip_no_trailing_space (s : string) : ends_with_space (rstrip s) = false.
Proof.
  induction s as [|c s IH]; [reflexivity|].
  cbn [rstrip]. destruct (rstrip s) as [|c' r] eqn:E.
  - destruct (is_space c) eqn:Ec; [reflexivity|]. simpl. exact Ec.
  - exact IH.
Qed.

Lemma rstrip_fixed (s : string) : ends_with_space s = false -> rstrip s = s.
Proof.
  induction s as [|c s IH]; [reflexivity|].
  intros H. cbn [rstrip]. destruct s as [|c' s'].
  - simpl in *. now rewrite H.
  - rewrite IH by exact H. reflexivity.
Qed.

Lemma lstrip_fixed (s : string) : starts_with_space s = false -> lstrip s = s.
Proof. destruct s as [|c s]; [reflexivity|]. simpl. now intros ->. Qed.

Lemma strip_trimmed (s : string) :
  starts_with_space (strip s) = false /\
  ends_with_space (strip s) = false /\
  strip (strip s) = strip s.
Proof.
  unfold strip.
  pose proof (rstrip_keeps_start _ (lstrip_no_leading_space s)) as Hs.
  pose proof (rstrip_no_trailing_space (lstrip s)) as He.
  split; [exact Hs|]. split; [exact He|].
  now rewrite (lstrip_fixed _ Hs), (rstrip_fixed _ He).
Qed.

(** The text [get_slide_content] shows for a table cell is trimmed: it
    neither starts nor ends with whitespace, so stripping it again changes
    nothing. *)
Theorem cell_text_is_trimmed (cell : value) (text : string) :
  cell_text_of cell = Ok text ->
  starts_with_space text = false /\
  ends_with_space text = false /\
  strip text = text.
Proof.
  unfold cell_text_of, res_bind. intros H.
  destruct (py_get cell "text" (VDict [])); [|discriminate].
  destruct (py_get a "textElements" (VList [])); [|discriminate].
  destruct (py_iter a0); [|discriminate].
  destruct (concat_text_runs a1 ""); [|discriminate].
  injection H as <-. apply strip_trimmed.
Qed.

Lemma Forall2_enumerate_snd {A B} (R : A -> B -> Prop) (l : list A) :
  forall (start : nat) (bs : list B),
    Forall2 (fun p b => R (snd p) b) (combine (seq start (List.length l)) l) bs ->
    Forall2 R l bs.
Proof.
  induction l as [|x l IH]; intros start bs H; simpl in H.
  - inversion H. constructor.
  - inversion H as [|p b ps bs' Hhead Htail]; subst.
    constructor; [exact Hhead|]. now apply (IH (S start)).
Qed.

Lemma table_row_line_cells (row : value) (row_idx : nat) :
  table_row row = true ->
  exists cells texts,
    py_get row "tableCells" (VList []) = Ok (VList cells) /\
    Forall2 (fun cell text => cell_text_of cell = Ok text) cells texts /\
    table_row_line repr_str row_idx row
    = Ok ("    Row " ++ str_of_nat (row_idx + 1) ++ ": "
            ++ str_of_strs repr_str texts).
Proof.
  intros H. apply dict_with_inv in H as (d & -> & Hd).
  assert (Hc : exists cs, dict_get d "tableCells" (VList []) = VList cs
                          /\ forallb table_cell cs = true).
  { unfold optional in Hd. unfold dict_get.
    destruct (dict_lookup "tableCells" d).
    - apply list_of_inv in Hd as (l & -> & Hl). now exists l.
    - now exists []. }
  destruct Hc as (cs & Hcs & Hall).
  destruct (for_each_collect (fun col_cell : nat * value => cell_text_of (snd col_cell))
              (enumerate cs)) with (acc := @nil string) as (texts & Hrun & Htexts).
  { apply Forall_enumerate with (P := fun c => exists b, cell_text_of c = Ok b).
    apply Forall_forall. intros c Hin. apply cell_text_of_total.
    rewrite forallb_forall in Hall. now apply Hall. }
  exists cs, texts. rewrite py_get_dict, Hcs. split; [reflexivity|].
  split; [exact (Forall2_enumerate_snd _ _ _ _ Htexts)|].
  unfold table_row_line. rewrite py_get_dict, Hcs. cbn [res_bind py_iter].
  now rewrite Hrun.
Qed.

(** A table with rows is rendered with one line per row, in the order of the
    rows; the line of the row at position [i] carries the number [i + 1] and
    the list of the trimmed texts of its cells, in the order of the cells. *)
Theorem table_rows_numbered (d table : dict) (rows : list value) :
  dict_lookup "shape" d = None ->
  dict_lookup "table" d = Some (VDict table) ->
  dict_get table "tableRows" (VList []) = VList rows ->
  rows <> [] ->
  forallb table_row rows = true ->
  exists table_content,
    content_block repr_str (VDict d)
    = Ok ("[Table] ID: "
            ++ py_str repr_str (dict_get d "objectId" (VStr "Unknown"))
            ++ ", Size: " ++ py_str repr_str (dict_get table "rows" (VInt 0))
            ++ "x" ++ py_str repr_str (dict_get table "columns" (VInt 0))
            ++ nl ++ String.concat nl table_content) /\
    List.length table_content = List.length rows /\
    forall (i : nat) (row : value),
      nth_error rows i = Some row ->
      exists cells texts,
        py_get row "tableCells" (VList []) = Ok (VList cells) /\
        Forall2 (fun cell text => cell_text_of cell = Ok text) cells texts /\
        nth_error table_content i
        = Some ("    Row " ++ str_of_nat (i + 1) ++ ": "
                ++ str_of_strs repr_str texts).
Proof.
  intros Hs Ht Hrows Hne Hall.
  destruct (for_each_collect
              (fun idx_row : nat * value =>
                 table_row_line repr_str (fst idx_row) (snd idx_row))
              (enumerate rows)) with (acc := @nil string)
    as (lines & Hrun & Hlines).
  { apply Forall_forall. intros [i r] Hin. cbn [fst snd].
    apply table_row_line_total. apply in_combine_r in Hin.
    rewrite forallb_forall in Hall. now apply Hall. }
  assert (Hlen : List.length lines = List.length rows).
  { rewrite <- (Forall2_length Hlines). unfold enumerate.
    rewrite length_combine, length_seq. lia. }
  exists lines. split; [|split; [exact Hlen|]].
  - unfold content_block.
    rewrite py_get_dict, (py_in_none _ _ Hs), (py_in_some _ _ _ Ht),
      (py_getitem_some _ _ _ Ht).
    cbn [res_bind]. rewrite !py_get_dict, Hrows. cbn [res_bind py_iter].
    rewrite Hrun. cbn [res_bind app].
    destruct rows; [congruence|]. destruct lines; [discriminate|]. reflexivity.
  - intros i row Hi.
    assert (Hrow : table_row row = true).
    { rewrite forallb_forall in Hall. apply Hall. eapply nth_error_In; eauto. }
    destruct (table_row_line_cells row i Hrow) as (cells & texts & Hc & Ht2 & Hl).
    exists cells, texts. split; [exact Hc|]. split; [exact Ht2|].
    pose proof (nth_error_enumerate_from rows 0 i row Hi) as Hp.
    destruct (Forall2_nth_some _ _ _ Hlines i _ Hp) as (line & Hline & Hok).
    cbn [fst snd] in Hok. rewrite Nat.add_0_l in Hok.
    rewrite Hline. congruence.
Qed.

(** Every page element gets the label of the first payload it carries, in
    the order shape, table, image, video, line: an element with several
    payloads is rendered once, as the first of them, and an element with
    none as a plain element. *)
Theorem content_block_label (d : dict) :
  page_element (VDict d) = true ->
  exists rest,
    content_block repr_str (VDict d)
    = Ok (block_label d
            ++ py_str repr_str (dict_get d "objectId" (VStr "Unknown"))
            ++ rest).
Proof.
  intros Hd. cbn [page_element dict_with] in Hd.
  apply andb_true_iff in Hd as [Hd Hline].
  apply andb_true_iff in Hd as [Hd Hvideo].
  apply andb_true_iff in Hd as [Hd Himage].
  apply andb_true_iff in Hd as [Hshape Htable].
  unfold optional in *.
  unfold content_block, block_label. rewrite py_get_dict. cbn [res_bind].
  destruct (dict_lookup "shape" d) as [shape|] eqn:Es.
  { rewrite (py_in_some _ _ _ Es), (py_getitem_some _ _ _ Es). cbn [res_bind].
    destruct (shape_text_content_total _ Hshape) as (t & Hs). rewrite Hs.
    apply dict_with_inv in Hshape as (sd & -> & _).
    rewrite py_get_dict. cbn [res_bind]. eexists.
    rewrite ?str_app_assoc. reflexivity. }
  rewrite (py_in_none _ _ Es). cbn [res_bind].
  destruct (dict_lookup "table" d) as [table|] eqn:Et.
  { rewrite (py_in_some _ _ _ Et), (py_getitem_some _ _ _ Et). cbn [res_bind].
    destruct (table_block_total d table Htable) as (b & Hb).
    apply dict_with_inv in Htable as (td & -> & _).
    rewrite !py_get_dict in *. cbn [res_bind] in *.
    destruct (py_iter (dict_get td "tableRows" (VList [])));
      cbn [res_bind] in *; [|discriminate].
    destruct (for_each _ (enumerate a) []); cbn [res_bind] in *; [|discriminate].
    eexists. rewrite ?str_app_assoc. reflexivity. }
  rewrite (py_in_none _ _ Et). cbn [res_bind].
  destruct (dict_lookup "image" d) as [image|] eqn:Ei.
  { rewrite (py_in_some _ _ _ Ei), (py_getitem_some _ _ _ Ei). cbn [res_bind].
    destruct image; try discriminate. rewrite py_get_dict. cbn [res_bind].
    eexists. rewrite ?str_app_assoc. reflexivity. }
  rewrite (py_in_none _ _ Ei). cbn [res_bind].
  destruct (dict_lookup "video" d) as [video|] eqn:Ev.
  { rewrite (py_in_some _ _ _ Ev), (py_getitem_some _ _ _ Ev). cbn [res_bind].
    destruct video; try discriminate. rewrite py_get_dict. cbn [res_bind].
    eexists. rewrite ?str_app_assoc. reflexivity. }
  rewrite (py_in_none _ _ Ev). cbn [res_bind].
  destruct (dict_lookup "line" d) as [line|] eqn:El.
  { rewrite (py_in_some _ _ _ El), (py_getitem_some _ _ _ El). cbn [res_bind].
    destruct line; try discriminate. rewrite py_get_dict. cbn [res_bind].
    eexists. rewrite ?str_app_assoc. reflexivity. }
  rewrite (py_in_none _ _ El). cbn [res_bind].
  eexists. rewrite ?str_app_assoc. reflexivity.
Qed.

End Properties.

(** ** The properties on the sample data *)

Lemma update_requests_layout_witness :
  exists requests,
    fst (build_requests sample_repr sample_updates []) = Ok requests /\
    List.length requests = 5 /\
    exists del ins,
      nth_error requests 2 = Some del /\
      nth_error requests 3 = Some ins /\
      request_kind del = Some "deleteText" /\
      request_kind ins = Some "insertText" /\
      request_object_id del = Some (VStr "T1") /\
      request_object_id ins = Some (VStr "T1").
Proof.
  destruct (update_requests_layout sample_repr sample_updates [])
    as (requests & Hrun & _ & Hlen & Hat).
  exists requests. split; [exact Hrun|]. split; [exact Hlen|].
  destruct (Hat 2 _ eq_refl) as [Hpair _].
  exact (Hpair eq_refl).
Defined.

Lemma no_valid_updates_short_circuit_witness :
  fst (build_requests sample_repr bogus_updates []) = Ok [] /\
  fst (update_slide_content sample_repr sample_remote "u@example.com" "P" "p1"
         bogus_updates [])
  = Ok "No valid updates were provided." /\
  calls (snd (update_slide_content sample_repr sample_remote "u@example.com"
                "P" "p1" bogus_updates [])) = [].
Proof.
  split; [reflexivity|].
  destruct (no_valid_updates_short_circuit sample_repr sample_remote
              "u@example.com" "P" "p1" bogus_updates [] eq_refl)
    as (_ & Hmsg & Hcalls & _).
  split; [exact Hmsg | exact Hcalls].
Defined.

Lemma extract_total_witness :
  forallb page_element sample_elements = true /\
  exists content_blocks,
    extract sample_repr sample_elements = Ok content_blocks /\
    List.length content_blocks = 6.
Proof.
  split; [reflexivity|].
  destruct (extract_total sample_repr sample_elements eq_refl)
    as (blocks & Hrun & Hlen & _).
  exists blocks. split; [exact Hrun | exact Hlen].
Defined.

Lemma update_summary_one_line_per_spec_witness :
  existsb known_type sample_updates = true /\
  nth_error (fst (summarize sample_repr sample_updates)) 1
  = Some "Element (ID: X1): Skipped (unknown type)" /\
  List.length (fst (summarize sample_repr sample_updates)) = 4.
Proof.
  split; [reflexivity|].
  destruct (update_summary_one_line_per_spec sample_repr sample_remote
              "u@example.com" "P" "p1" sample_updates [] _ _ 1
              eq_refl eq_refl eq_refl eq_refl)
    as (_ & _ & Hlen & Hline & _).
  split; [exact (Hline 1 _ eq_refl eq_refl) | exact Hlen].
Defined.

Lemma get_page_ignores_image_and_video_witness :
  get_page_line sample_repr (VDict [("objectId", VStr "I1"); ("image", VDict [])])
  = Ok "  Element: ID I1, Type: Unknown" /\
  content_block sample_repr (VDict [("objectId", VStr "I1"); ("image", VDict [])])
  = Ok ("[Image] ID: I1" ++ nl ++ "  Description: (no description)").
Proof.
  destruct (get_page_ignores_image_and_video sample_repr
              [("objectId", VStr "I1"); ("image", VDict [])]
              eq_refl eq_refl eq_refl)
    as (Hpage & Himage & _).
  split; [exact Hpage | exact (Himage [] eq_refl)].
Defined.

Lemma copy_slide_source_not_found_witness :
  existsb (has_object_id "zzz") [VDict [("objectId", VStr "a")];
                                 VDict [("objectId", VStr "b")];
                                 VDict [("objectId", VStr "c")]] = false /\
  fst (copy_slide sample_repr sample_remote "u@example.com" "P" "zzz"
         (Some sample_updates) [])
  = Ok "Source slide with object ID 'zzz' not found." /\
  calls (snd (copy_slide sample_repr sample_remote "u@example.com" "P" "zzz"
                (Some sample_updates) []))
  = [PresentationsGet "P"].
Proof.
  split; [reflexivity|].
  destruct (copy_slide_source_not_found sample_repr sample_remote
              "u@example.com" "P" "zzz" (Some sample_updates) []
              sample_presentation _ eq_refl eq_refl eq_refl eq_refl)
    as (Hmsg & Hcalls & _).
  split; [exact Hmsg | exact Hcalls].
Defined.

Lemma copy_slide_insertion_index_witness :
  exists later,
    calls (snd (copy_slide sample_repr sample_remote "u@example.com" "P" "c"
                  None []))
    = PresentationsGet "P"
      :: BatchUpdate "P"
           (VDict [("requests",
                    VList [VDict [("duplicateObject",
                                   VDict [("objectId", VStr "c");
                                          ("insertionIndex", VInt 3)])]])])
      :: later.
Proof.
  exact (copy_slide_insertion_index sample_repr sample_remote "u@example.com"
           "P" "c" None [] sample_presentation
           [VDict [("objectId", VStr "a")]; VDict [("objectId", VStr "b")]]
           (VDict [("objectId", VStr "c")]) []
           eq_refl eq_refl eq_refl eq_refl eq_refl).
Defined.

Lemma copy_slide_duplication_failed_witness :
  new_slide_id_of (VDict [("replies", VList [VDict []])]) = Ok VNone /\
  fst (copy_slide sample_repr empty_reply_remote "u@example.com" "P" "b"
         (Some sample_updates) [])
  = Ok "Failed to duplicate slide b." /\
  calls (snd (copy_slide sample_repr empty_reply_remote "u@example.com" "P" "b"
                (Some sample_updates) []))
  = [PresentationsGet "P";
     BatchUpdate "P" (batch_body [duplicate_request "b" 2])].
Proof.
  split; [reflexivity|].
  exact (copy_slide_duplication_failed sample_repr empty_reply_remote
           "u@example.com" "P" "b" (Some sample_updates) []
           sample_presentation 2 _ VNone
           eq_refl eq_refl eq_refl eq_refl eq_refl).
Defined.

Lemma copy_slide_unknown_updates_only_witness :
  calls (snd (copy_slide sample_repr sample_remote "u@example.com" "P" "b"
                (Some bogus_updates) []))
  = [PresentationsGet "P";
     BatchUpdate "P" (batch_body [duplicate_request "b" 2])] /\
  warnings (snd (copy_slide sample_repr sample_remote "u@example.com" "P" "b"
                   (Some bogus_updates) [])) = [] /\
  warnings (snd (update_slide_content sample_repr sample_remote
                   "u@example.com" "P" "p1" bogus_updates []))
  = [Logged Warning "Unknown update_type 'bogus' for element X1"].
Proof.
  destruct (copy_slide_unknown_updates_only sample_repr sample_remote
              "u@example.com" "P" "b" bogus_updates [] sample_presentation 2
              sample_batch_result (VStr "copy") "p1")
    as (_ & Hcalls & Hquiet & Hwarned);
    try reflexivity; [discriminate|].
  split; [exact Hcalls|]. split; [exact Hquiet | exact Hwarned].
Defined.

Lemma slides_breakdown_numbered_witness :
  exists slides_info,
    slides_breakdown sample_repr
      [VDict [("objectId", VStr "a")];
       VDict [("objectId", VStr "b"); ("pageElements", VList [VDict []])];
       VDict []]
    = Ok slides_info /\
    List.length slides_info = 3 /\
    nth_error slides_info 1 = Some "  Slide 2: ID b, 1 element(s)" /\
    nth_error slides_info 2 = Some "  Slide 3: ID Unknown, 0 element(s)".
Proof.
  destruct (slides_breakdown_numbered sample_repr
              [VDict [("objectId", VStr "a")];
               VDict [("objectId", VStr "b"); ("pageElements", VList [VDict []])];
               VDict []] eq_refl)
    as (lines & Hrun & Hlen & Hat).
  exists lines. split; [exact Hrun|]. split; [exact Hlen|].
  split; [exact (Hat 1 _ eq_refl) | exact (Hat 2 _ eq_refl)].
Defined.

Lemma get_presentation_message_witness :
  exists slides_info,
    List.length slides_info = 3 /\
    fst (get_presentation sample_repr sample_remote "u@example.com" "P" [])
    = Ok ("Presentation Details for u@example.com:" ++ nl
          ++ "- Title: Untitled" ++ nl
          ++ "- Presentation ID: P" ++ nl
          ++ "- URL: https://docs.google.com/presentation/d/P/edit" ++ nl
          ++ "- Total Slides: 3" ++ nl
          ++ "- Page Size: Unknown x Unknown " ++ nl ++ nl
          ++ "Slides Breakdown:" ++ nl
          ++ String.concat nl slides_info).
Proof.
  destruct (get_presentation_message sample_repr sample_remote "u@example.com"
              "P" [] _ _ eq_refl eq_refl eq_refl eq_refl)
    as (lines & _ & Hlen & Hmsg).
  exists lines. split; [exact Hlen | exact Hmsg].
Defined.

Lemma batch_update_reports_replies_witness :
  fst (batch_update_presentation sample_repr replies_remote "u@example.com" "P"
         [[("createSlide", VDict [])]] [])
  = Ok ("Batch Update Completed for u@example.com:" ++ nl
        ++ "- Presentation ID: P" ++ nl
        ++ "- URL: https://docs.google.com/presentation/d/P/edit" ++ nl
        ++ "- Requests Applied: 1" ++ nl
        ++ "- Replies Received: 3" ++ nl ++ nl
        ++ "Update Results:" ++ nl
        ++ "  Request 1: Created slide with ID n1" ++ nl
        ++ "  Request 2: Operation completed" ++ nl
        ++ "  Request 3: Created shape with ID Unknown").
Proof.
  exact (batch_update_reports_replies sample_repr replies_remote
           "u@example.com" "P" [[("createSlide", VDict [])]] [] _ _
           eq_refl eq_refl eq_refl).
Defined.

Lemma get_page_message_witness :
  exists elements_info,
    Forall2 (fun element line => get_page_line sample_repr element = Ok line)
            sample_elements elements_info /\
    fst (get_page sample_repr sample_remote "u@example.com" "P" "p1" [])
    = Ok ("Page Details for u@example.com:" ++ nl
          ++ "- Presentation ID: P" ++ nl
          ++ "- Page ID: p1" ++ nl
          ++ "- Page Type: Unknown" ++ nl
          ++ "- Total Elements: 6" ++ nl ++ nl
          ++ "Page Elements:" ++ nl
          ++ String.concat nl elements_info).
Proof.
  exact (get_page_message sample_repr sample_remote "u@example.com" "P" "p1"
           [] _ _ eq_refl eq_refl eq_refl).
Defined.

Lemma get_slide_content_message_witness :
  exists content_blocks,
    Forall2 (fun element block => content_block sample_repr element = Ok block)
            sample_elements content_blocks /\
    fst (get_slide_content sample_repr sample_remote "u@example.com" "P" "p1" [])
    = Ok ("Slide Content Details for u@example.com:" ++ nl
          ++ "- Presentation ID: P" ++ nl
          ++ "- Page ID: p1" ++ nl
          ++ "- Total Elements: 6" ++ nl ++ nl
          ++ "Content Summary:" ++ nl
          ++ String.concat nl content_blocks ++ nl).
Proof.
  exact (get_slide_content_message sample_repr sample_remote "u@example.com"
           "P" "p1" [] _ _ eq_refl eq_refl eq_refl).
Defined.

Lemma create_slide_outcome_witness :
  fst (create_slide sample_repr replies_remote "u@example.com" "P"
         (Some 0%Z) (Some "") [])
  = Ok ("Slide Created Successfully for u@example.com:" ++ nl
        ++ "- Presentation ID: P" ++ nl
        ++ "- New Slide ID: n1" ++ nl
        ++ "- Insertion Index: 0" ++ nl
        ++ "- Layout ID: default" ++ nl
        ++ "- URL: https://docs.google.com/presentation/d/P/edit#slide=id.n1"
        ++ nl) /\
  fst (create_slide sample_repr sample_remote "u@example.com" "P" None None [])
  = Ok "Failed to create a new slide.".
Proof.
  split.
  - exact (create_slide_outcome sample_repr replies_remote "u@example.com" "P"
             (Some 0%Z) (Some "") [] _ (VStr "n1") eq_refl eq_refl).
  - exact (create_slide_outcome sample_repr sample_remote "u@example.com" "P"
             None None [] _ VNone eq_refl eq_refl).
Defined.

Lemma create_slide_empty_replies_witness :
  fst (create_slide sample_repr no_reply_remote "u@example.com" "P" None None [])
  = Raise IndexError.
Proof.
  exact (create_slide_empty_replies sample_repr no_reply_remote "u@example.com"
           "P" None None [] _ eq_refl eq_refl).
Defined.

Lemma copy_slide_empty_replies_witness :
  fst (copy_slide sample_repr no_reply_remote "u@example.com" "P" "b" None [])
  = Raise IndexError /\
  calls (snd (copy_slide sample_repr no_reply_remote "u@example.com" "P" "b"
                None []))
  = [PresentationsGet "P";
     BatchUpdate "P" (batch_body [duplicate_request "b" 2])].
Proof.
  exact (copy_slide_empty_replies sample_repr no_reply_remote "u@example.com"
           "P" "b" None [] sample_presentation 2 _
           eq_refl eq_refl eq_refl eq_refl).
Defined.

Lemma locate_source_sound_witness :
  locate_source sample_presentation "b" = Ok (Some 2) /\
  1 <= 2 <= 3.
Proof.
  split; [reflexivity|].
  exact (proj1 (locate_source_sound sample_presentation "b" _ 2
                  eq_refl eq_refl)).
Defined.

Lemma copy_slide_applies_updates_witness :
  fst (copy_slide sample_repr sample_remote "u@example.com" "P" "b"
         (Some sample_updates) [])
  = Ok ("Slide Copied Successfully for u@example.com:" ++ nl
        ++ "- Presentation ID: P" ++ nl
        ++ "- Source Page ID: b" ++ nl
        ++ "- New Slide ID: copy" ++ nl
        ++ "- Insertion Index: 2" ++ nl ++ nl
        ++ "- Updates Applied: 5 request(s) sent, 1 replies received." ++ nl
        ++ "- URL: https://docs.google.com/presentation/d/P/edit#slide=id.copy"
        ++ nl) /\
  calls (snd (copy_slide sample_repr sample_remote "u@example.com" "P" "b"
                (Some sample_updates) []))
  = [PresentationsGet "P";
     BatchUpdate "P" (batch_body [duplicate_request "b" 2]);
     BatchUpdate "P" (batch_body (spec_compile sample_updates))].
Proof.
  exact (copy_slide_applies_updates sample_repr sample_remote "u@example.com"
           "P" "b" sample_updates [] sample_presentation 2
           sample_batch_result (VStr "copy") sample_batch_result _ 1
           eq_refl eq_refl eq_refl eq_refl eq_refl eq_refl eq_refl eq_refl
           eq_refl).
Defined.

Lemma copy_slide_update_failure_witness :
  fst (copy_slide sample_repr failing_update_remote "u@example.com" "P" "b"
         (Some sample_updates) [])
  = Raise (RemoteFailure "503") /\
  calls (snd (copy_slide sample_repr failing_update_remote "u@example.com" "P"
                "b" (Some sample_updates) []))
  = [PresentationsGet "P";
     BatchUpdate "P" (batch_body [duplicate_request "b" 2]);
     BatchUpdate "P" (batch_body (spec_compile sample_updates))].
Proof.
  exact (copy_slide_update_failure sample_repr failing_update_remote
           "u@example.com" "P" "b" sample_updates [] sample_presentation 2
           sample_batch_result (VStr "copy") (RemoteFailure "503")
           eq_refl eq_refl eq_refl eq_refl eq_refl eq_refl eq_refl).
Defined.

Lemma cell_text_is_trimmed_witness :
  cell_text_of
    (VDict [("text",
             VDict [("textElements",
                     VList [VDict [("textRun",
                                    VDict [("content", VStr " x ")])]])])])
  = Ok "x" /\
  strip "x" = "x".
Proof.
  split; [reflexivity|].
  exact (proj2 (proj2 (cell_text_is_trimmed
                         (VDict [("text",
                                  VDict [("textElements",
                                          VList [VDict [("textRun",
                                                         VDict [("content",
                                                                 VStr " x ")])]])])])
                         "x" eq_refl))).
Defined.

Lemma table_rows_numbered_witness :
  exists table_content,
    content_block sample_repr
      (VDict [("objectId", VStr "T1"); ("table", VDict sample_table)])
    = Ok ("[Table] ID: T1, Size: 1x2" ++ nl ++ String.concat nl table_content) /\
    List.length table_content = 1.
Proof.
  destruct (table_rows_numbered sample_repr
              [("objectId", VStr "T1"); ("table", VDict sample_table)]
              sample_table _ eq_refl eq_refl eq_refl)
    as (lines & Hblock & Hlen & _);
    [discriminate | reflexivity |].
  exists lines. split; [exact Hblock | exact Hlen].
Defined.

Lemma content_block_label_witness :
  exists rest,
    content_block sample_repr
      (VDict [("objectId", VStr "I1"); ("video", VDict []); ("image", VDict [])])
    = Ok ("[Image] ID: I1" ++ rest).
Proof.
  destruct (content_block_label sample_repr
              [("objectId", VStr "I1"); ("video", VDict []); ("image", VDict [])]
              eq_refl) as (rest & H).
  exists rest. exact H.
Defined.
